(** * XSMB top-3 pipeline: a shallow embedding of [xsmb_auto_update.py]

    The development follows the source file top to bottom:
    - [Text]: the string primitives the script relies on ([str.split],
      [len], [s[-2:]], [int], [zfill]);
    - [Series] and [sort_values]: the pandas operations of [build_features]
      (the nan-aware statistics of a column, the two-key sort);
    - [build_features] itself: the loop that builds [hist], the 30-day
      window, [groupby]/[reindex], the score column;
    - [Calendar], [Report], [Regex], [Soup]: dates, the two HTML pages, the
      regular expression and the HTML parser of the fetcher;
    - [fetch_latest_from_ketqua] and [main] over an explicit world (the CSV
      file, the two HTML files, standard output and a trace of file
      operations).

    Modelling conventions.
    - A character is a code point below 256 ([ascii]); text written to disk
      is held as its UTF-8 bytes.
    - A calendar day is its day number, a [Z]; [pd.to_datetime(..).normalize()]
      is a parameter that yields the day number or raises (missing dates,
      NaT, are outside the model), and [Timestamp.strftime] is a parameter
      that yields the text of a day or raises.  [Calendar.iso_day] and
      [Calendar.strftime] are instances for dates written as the script
      writes them, [%Y-%m-%d] with a year of four digits; they are used on
      such dates only.
    - [BeautifulSoup(html, "html.parser")] of line 29 is a parameter that
      returns or raises; [Soup.html_parser] is an instance for pages
      without a marked section.
    - Each float64 operation is idealised as the exact operation over [R]; a
      missing value (NaN) is [None].
    - The history file is held as the table [pd.read_csv] yields from it, and
      [DataFrame.to_csv] followed by [pd.read_csv] is taken to give the
      table back.  This holds of the tables whose cells pandas reads back
      as the text written (a date [%Y-%m-%d], a prize column that is not
      all numeric); file operations do not fail. *)

From Stdlib Require Import ZArith List Bool String Ascii Lia Permutation Sorted FinFun.
From Stdlib Require Import Reals Lra DecimalString.
Import ListNotations.

Open Scope Z_scope.

(** ** Exceptions and results *)

Inductive exn : Type :=
| ValueError            (* int() on a non-numeric literal *)
| DateParseError        (* pd.to_datetime could not parse the date *)
| ConnectionError       (* requests.get failed *)
| HTTPError (status : Z)(* raise_for_status on a 4xx or 5xx answer *)
| RuntimeError          (* no number found in the page *)
| ParserRejectedMarkup  (* BeautifulSoup(html, ..) gave up on the page *)
| NotImplementedError.  (* strftime on a year outside 1..9999 *)

Inductive result (A : Type) : Type :=
| Ok (a : A)
| Raise (e : exn).
Arguments Ok {A} a.
Arguments Raise {A} e.

Definition bind {A B : Type} (m : result A) (k : A -> result B) : result B :=
  match m with
  | Ok a => k a
  | Raise e => Raise e
  end.

Notation "x <- m ;; k" := (bind m (fun x => k))
  (at level 61, m at next level, right associativity).

(** ** Text primitives *)

Module Text.

Definition code (c : ascii) : Z := Z.of_N (N_of_ascii c).

(** [str.isspace] on one character: TAB..CR, FS..US, SPACE, NEL, NBSP. *)
Definition isspace (c : ascii) : bool :=
  let n := code c in
  ((9 <=? n) && (n <=? 13)) || ((28 <=? n) && (n <=? 32))
  || (n =? 133) || (n =? 160).

(** Decimal digits: below 256 only the ASCII ones have the decimal property. *)
Definition isdigit (c : ascii) : bool :=
  let n := code c in (48 <=? n) && (n <=? 57).

Definition flush (tok : string) : list string :=
  match tok with
  | EmptyString => []
  | _ => [tok]
  end.

(** [s.split()] with no argument: maximal runs of non-space characters. *)
Fixpoint split_from (tok s : string) : list string :=
  match s with
  | EmptyString => flush tok
  | String c s' =>
      if isspace c then flush tok ++ split_from EmptyString s'
      else split_from (tok ++ String c EmptyString) s'
  end.

Definition split (s : string) : list string := split_from EmptyString s.

(** [s[-2:]]: the last two characters (all of [s] when it is shorter). *)
Definition last_two (s : string) : string :=
  substring (String.length s - 2) 2 s.

Fixpoint lstrip (s : string) : string :=
  match s with
  | String c s' => if isspace c then lstrip s' else s
  | EmptyString => s
  end.

Fixpoint rev_onto (s acc : string) : string :=
  match s with
  | EmptyString => acc
  | String c s' => rev_onto s' (String c acc)
  end.

Definition strip (s : string) : string :=
  let r := lstrip (rev_onto (lstrip s) EmptyString) in rev_onto r EmptyString.

(** The digit part of an integer literal: decimal digits, with single
    underscores allowed between two digits only. *)
Fixpoint digits_value (acc : Z) (after_digit : bool) (s : string) : option Z :=
  match s with
  | EmptyString => if after_digit then Some acc else None
  | String c s' =>
      if isdigit c then digits_value (10 * acc + (code c - 48)) true s'
      else if Ascii.eqb c "_"%char && after_digit then digits_value acc false s'
      else None
  end.

(** [int(s)] in base ten: surrounding white space, an optional sign, then
    the digits.  [None] stands for [ValueError]. *)
Definition int (s : string) : option Z :=
  match strip s with
  | String "+"%char d => digits_value 0 false d
  | String "-"%char d => option_map Z.opp (digits_value 0 false d)
  | d => digits_value 0 false d
  end.

(** [str(n)] for an integer. *)
Definition str_int (n : Z) : string := NilZero.string_of_int (Z.to_int n).

(** [str(n)] padded with zeros on the left up to [width] characters, for a
    non-negative [n]. *)
Fixpoint zeros (k : nat) : string :=
  match k with
  | O => EmptyString
  | S k' => String "0"%char (zeros k')
  end.

Definition zfill (width : nat) (s : string) : string :=
  (zeros (width - String.length s) ++ s)%string.

(** [" ".join(l)] *)
Fixpoint join_sp (l : list string) : string :=
  match l with
  | [] => EmptyString
  | [s] => s
  | s :: rest => (s ++ String " "%char (join_sp rest))%string
  end.

End Text.

(** ** The history table *)

(** One row of [xsmb_history.csv]; [all_prizes] is [str(r["all_prizes"])]. *)
Record row : Type := mkRow { date : string; all_prizes : string }.

Definition history : Type := list row.

(** One row of the intermediate frame [hist]. *)
Record entry : Type := mkEntry { e_date : Z; e_num : Z }.

(** One row of the feature table. *)
Record feat : Type := mkFeat {
  num : Z;
  freq_30d : Z;
  recency_days : option Z;
  score : option R
}.

(** [range(100)] *)
Definition range100 : list Z := map Z.of_nat (seq 0 100).

(** ** Series statistics (pandas, nan-aware) *)

Module Series.

Open Scope R_scope.

Definition t : Type := list (option R).

(** The values that are not NaN. *)
Fixpoint valid (s : t) : list R :=
  match s with
  | [] => []
  | Some x :: s' => x :: valid s'
  | None :: s' => valid s'
  end.

Fixpoint sum (l : list R) : R :=
  match l with
  | [] => 0
  | x :: l' => x + sum l'
  end.

Definition count (s : t) : nat := List.length (valid s).

(** [Series.mean()], skipping NaN; NaN when nothing is left. *)
Definition mean (s : t) : option R :=
  match count s with
  | O => None
  | n => Some (sum (valid s) / INR n)
  end.

(** Sum of squared deviations from [m]. *)
Definition sqdev (m : R) (l : list R) : R :=
  sum (map (fun x => (x - m) * (x - m)) l).

(** [Series.std(ddof=1)], skipping NaN; NaN with fewer than two values. *)
Definition std (s : t) : option R :=
  match count s with
  | O => None
  | S O => None
  | S n =>
      let m := sum (valid s) / INR (S n) in
      Some (sqrt (sqdev m (valid s) / INR n))
  end.

(** [Series.max()], skipping NaN. *)
Fixpoint maxl (l : list R) : option R :=
  match l with
  | [] => None
  | x :: l' =>
      match maxl l' with
      | None => Some x
      | Some y => Some (Rmax x y)
      end
  end.

Definition max (s : t) : option R := maxl (valid s).

(** [Series.fillna(v)]; a NaN [v] fills nothing. *)
Definition fillna (s : t) (v : option R) : t :=
  map (fun x => match x with Some _ => x | None => v end) s.

(** [x or 1.0] on a float: [1.0] when [x] is zero; NaN is truthy. *)
Definition or_one (x : option R) : option R :=
  match x with
  | Some v => if Req_dec_T v 0 then Some 1 else Some v
  | None => None
  end.

Definition lift2 (f : R -> R -> R) (a b : option R) : option R :=
  match a, b with
  | Some x, Some y => Some (f x y)
  | _, _ => None
  end.

(** [(s - s.mean()) / (s.std(ddof=1) or 1.0)] *)
Definition zscore (s : t) : t :=
  let m := mean s in
  let d := or_one (std s) in
  map (fun x => lift2 Rdiv (lift2 Rminus x m) d) s.

(** [0.6 * a + 0.4 * b] on two floats. *)
Definition mix (a b : option R) : option R :=
  lift2 Rplus (lift2 Rmult (Some (6 / 10)) a) (lift2 Rmult (Some (4 / 10)) b).

(** [0.6 * a + 0.4 * b], element by element. *)
Definition blend (a b : t) : t :=
  map (fun p => mix (fst p) (snd p)) (combine a b).

End Series.

(** ** sort_values *)

Section SortValues.

Variable A : Type.
Variable leb : A -> A -> bool.

Fixpoint insert_sorted (x : A) (l : list A) : list A :=
  match l with
  | [] => [x]
  | y :: l' => if leb x y then x :: l else y :: insert_sorted x l'
  end.

(** A stable sort: rows are inserted from the last to the first, each before
    the first row that may follow it. *)
Fixpoint sort_by (l : list A) : list A :=
  match l with
  | [] => []
  | x :: l' => insert_sorted x (sort_by l')
  end.

End SortValues.

Arguments insert_sorted {A} leb x l.
Arguments sort_by {A} leb l.

(** The order of [sort_values(["score", "num"], ascending=[False, True])]:
    higher score first, NaN scores last, equal scores by ascending [num]. *)
Definition score_before (a b : option R) : bool :=
  match a, b with
  | Some x, Some y => if Rlt_dec y x then true else false
  | Some _, None => true
  | None, _ => false
  end.

Definition score_same (a b : option R) : bool :=
  match a, b with
  | Some x, Some y => if Req_dec_T x y then true else false
  | None, None => true
  | _, _ => false
  end.

Definition feat_leb (a b : feat) : bool :=
  score_before (score a) (score b)
  || (score_same (score a) (score b) && (num a <=? num b)).

Definition sort_values (l : list feat) : list feat := sort_by feat_leb l.

(** ** build_features *)

Section BuildFeatures.

(** [pd.to_datetime(x).normalize()] as a day number; [None] when it raises. *)
Variable to_datetime : string -> option Z.

(** The inner loop of lines 49-52 over the tokens of one row.  The string
    [digits] of line 50 is never used and building it raises nothing. *)
Fixpoint tokens_entries (d : Z) (toks : list string) : result (list entry) :=
  match toks with
  | [] => Ok []
  | s :: rest =>
      if (2 <=? String.length s)%nat then
        match Text.int (Text.last_two s) with
        | Some n =>
            es <- tokens_entries d rest ;;
            Ok (mkEntry d n :: es)
        | None => Raise ValueError
        end
      else tokens_entries d rest
  end.

(** The outer loop of lines 47-53: the frame [hist]. *)
Fixpoint hist_rows (df : history) : result (list entry) :=
  match df with
  | [] => Ok []
  | r :: rest =>
      match to_datetime (date r) with
      | None => Raise DateParseError
      | Some d =>
          es <- tokens_entries d (Text.split (all_prizes r)) ;;
          es' <- hist_rows rest ;;
          Ok (es ++ es')
      end
  end.

(** [hist["date"].max()] on a non-empty frame. *)
Definition max_date (e : entry) (es : list entry) : Z :=
  fold_left Z.max (map e_date es) (e_date e).

(** [hist[hist["date"] >= window_start]] *)
Definition in_window (window_start : Z) (hist : list entry) : list entry :=
  filter (fun e => window_start <=? e_date e) hist.

(** The group of a key under [groupby("num")]. *)
Definition group (hist : list entry) (n : Z) : list entry :=
  filter (fun e => e_num e =? n) hist.

(** [groupby("num").size().reindex(range(100), fill_value=0)] at key [n]. *)
Definition size_at (hist : list entry) (n : Z) : Z :=
  match group hist n with
  | [] => 0
  | g => Z.of_nat (List.length g)
  end.

(** [groupby("num")["date"].max().reindex(range(100))] at key [n]. *)
Definition last_seen_at (hist : list entry) (n : Z) : option Z :=
  match group hist n with
  | [] => None
  | e :: es => Some (max_date e es)
  end.

(** Lines 58-66: the table [out] before scoring, one triple per key. *)
Definition count_table (e : entry) (es : list entry)
  : Z * list (Z * Z * option Z) :=
  let hist := e :: es in
  let latest_day := max_date e es in
  let window_start := latest_day - 29 in
  let freq := size_at (in_window window_start hist) in
  let recency n := option_map (fun d => latest_day - d) (last_seen_at hist n) in
  (latest_day, map (fun n => (n, freq n, recency n)) range100).

Definition freq_col (out : list (Z * Z * option Z)) : Series.t :=
  map (fun r => Some (IZR (snd (fst r)))) out.

Definition recency_col (out : list (Z * Z * option Z)) : Series.t :=
  map (fun r => option_map IZR (snd r)) out.

(** [z_hot] of line 68. *)
Definition z_hot (out : list (Z * Z * option Z)) : Series.t :=
  Series.zscore (freq_col out).

(** [rc] of line 69 and [z_cold] of line 70. *)
Definition rc (out : list (Z * Z * option Z)) : Series.t :=
  Series.fillna (recency_col out) (Series.max (recency_col out)).

Definition z_cold (out : list (Z * Z * option Z)) : Series.t :=
  Series.zscore (rc out).

(** Line 71: the table with its score column. *)
Definition with_score (out : list (Z * Z * option Z)) : list feat :=
  map (fun p => mkFeat (fst (fst (fst p))) (snd (fst (fst p))) (snd (fst p)) (snd p))
      (combine out (Series.blend (z_hot out) (z_cold out))).

(** Lines 55-56: the neutral table of the empty history. *)
Definition empty_table : list feat :=
  map (fun n => mkFeat n 0 None (Some 0%R)) range100.

Definition build_features (df : history) : result (list feat * option Z) :=
  hist <- hist_rows df ;;
  match hist with
  | [] => Ok (empty_table, None)
  | e :: es =>
      let (latest_day, out) := count_table e es in
      Ok (sort_values (with_score out), Some latest_day)
  end.

End BuildFeatures.

(** ** A calendar for ISO dates

    An instance of the [to_datetime] parameter on the dates the script itself
    writes ([%Y-%m-%d]): the day number counted from 1970-01-01. *)

Module Calendar.

Definition digit (c : ascii) : option Z :=
  if Text.isdigit c then Some (Text.code c - 48) else None.

Fixpoint number (acc : Z) (s : string) : option Z :=
  match s with
  | EmptyString => Some acc
  | String c s' =>
      match digit c with
      | Some d => number (10 * acc + d) s'
      | None => None
      end
  end.

Definition is_leap (y : Z) : bool :=
  ((y mod 4 =? 0) && negb (y mod 100 =? 0)) || (y mod 400 =? 0).

Definition days_in_month (y m : Z) : Z :=
  if m =? 2 then (if is_leap y then 29 else 28)
  else if (m =? 4) || (m =? 6) || (m =? 9) || (m =? 11) then 30
  else 31.

(** Day number of the civil date [y-m-d] in the proleptic Gregorian calendar. *)
Definition days_from_civil (y m d : Z) : Z :=
  let y' := if m <=? 2 then y - 1 else y in
  let era := y' / 400 in
  let yoe := y' - era * 400 in
  let mp := if 2 <? m then m - 3 else m + 9 in
  let doy := (153 * mp + 2) / 5 + d - 1 in
  let doe := yoe * 365 + yoe / 4 - yoe / 100 + doy in
  era * 146097 + doe - 719468.

(** [pd.to_datetime] on a text of the form [YYYY-MM-DD], the form the script
    writes; the other forms pandas reads are not read here. *)
Definition iso_day (s : string) : option Z :=
  if negb (String.length s =? 10)%nat then None
  else if negb (String.eqb (substring 4 1 s) "-" && String.eqb (substring 7 1 s) "-")
  then None
  else
    match number 0 (substring 0 4 s), number 0 (substring 5 2 s),
          number 0 (substring 8 2 s) with
    | Some y, Some m, Some d =>
        if (1 <=? m) && (m <=? 12) && (1 <=? d) && (d <=? days_in_month y m)
        then Some (days_from_civil y m d)
        else None
    | _, _, _ => None
    end.

(** The civil date of a day number. *)
Definition civil_from_days (z0 : Z) : Z * Z * Z :=
  let z := z0 + 719468 in
  let era := z / 146097 in
  let doe := z - era * 146097 in
  let yoe := (doe - doe / 1460 + doe / 36524 - doe / 146096) / 365 in
  let doy := doe - (365 * yoe + yoe / 4 - yoe / 100) in
  let mp := (5 * doy + 2) / 153 in
  let d := doy - (153 * mp + 2) / 5 + 1 in
  let m := if mp <? 10 then mp + 3 else mp - 9 in
  let y := yoe + era * 400 + (if m <=? 2 then 1 else 0) in
  (y, m, d).

(** [strftime('%Y-%m-%d')] on a day number: the year as it is, month and
    day on two digits; a year outside 1..9999 raises. *)
Definition strftime (z : Z) : result string :=
  let '(y, m, d) := civil_from_days z in
  if (1 <=? y) && (y <=? 9999) then
    Ok (Text.str_int y ++ "-" ++ Text.zfill 2 (Text.str_int m)
        ++ "-" ++ Text.zfill 2 (Text.str_int d))%string
  else Raise NotImplementedError.

End Calendar.


(** ** The HTML reports *)

Module Report.

Local Open Scope string_scope.

Definition dq : string := String (ascii_of_nat 34) EmptyString.
Definition nl : string := String (ascii_of_nat 10) EmptyString.

Definition str_int (n : Z) : string := Text.str_int n.

(** [f"{n:02d}"], also [str(n).zfill(2)]. *)
Definition pad2 (n : Z) : string :=
  let s := str_int n in
  if (String.length s <? 2)%nat then "0" ++ s else s.

(** [f"{x:.3f}"] in exact arithmetic: the nearest multiple of 1/1000, ties
    to even, printed with its sign; [nan] for a missing value. *)
Definition round_half_even (x : R) : Z :=
  let f := Int_part x in
  let r := frac_part x in
  if Rlt_dec r (1 / 2) then f
  else if Rlt_dec (1 / 2) r then f + 1
  else if Z.even f then f else f + 1.

Definition format_3f (x : option R) : string :=
  match x with
  | None => "nan"
  | Some v =>
      let n := round_half_even (Rabs v * 1000) in
      (if Rlt_dec v 0 then "-" else "")
      ++ str_int (n / 1000) ++ "." ++ Text.zfill 3 (str_int (n mod 1000))
  end.

Fixpoint concat_all (l : list string) : string :=
  match l with
  | [] => EmptyString
  | s :: rest => s ++ concat_all rest
  end.

(** Lines joined by a newline, as in the triple-quoted templates. *)
Fixpoint unlines (l : list string) : string :=
  match l with
  | [] => EmptyString
  | [s] => s
  | s :: rest => s ++ nl ++ unlines rest
  end.

Definition disclaimer : string :=
  "⚠️ Miễn trừ trách nhiệm: Đây chỉ là công cụ thống kê mô tả dựa trên dữ liệu quá khứ. "
  ++ "Không đảm bảo kết quả, nội dung chỉ mang tính chất tham khảo. Vui lòng chơi có trách nhiệm.".

Section Render.

(** [latest_day.strftime('%Y-%m-%d')] *)
Variable strftime : Z -> result string.
(** [f"{x:.3f}"] on a score. *)
Variable format_3f : option R -> string.

(** [feature_df.head(topk)] *)
Definition head (topk : nat) (feature_df : list feat) : list feat :=
  firstn topk feature_df.

(** ['' if latest_day is None else latest_day.strftime('%Y-%m-%d')] *)
Definition data_as_of (latest_day : option Z) : result string :=
  match latest_day with
  | None => Ok ""
  | Some d => strftime d
  end.

(** One list item of [index.html] (line 93). *)
Definition item (r : feat) : string :=
  "<li>" ++ pad2 (num r) ++ " – score " ++ format_3f (score r)
  ++ ", 30d: " ++ str_int (freq_30d r) ++ ", recency: "
  ++ match recency_days r with
     | None => ""
     | Some d => str_int d
     end
  ++ " ngày</li>".

(** One list item of [index_top3_only.html] (line 115). *)
Definition item_compact (r : feat) : string :=
  "<li>" ++ pad2 (num r) ++ " – score " ++ format_3f (score r) ++ "</li>".

(** The template of lines 85-96 and 107-118, with its three holes filled. *)
Definition page (title tag as_of items : string) : string :=
  unlines
    [ "<!doctype html>";
      "<html lang=" ++ dq ++ "vi" ++ dq ++ "><head>";
      "<meta charset=" ++ dq ++ "utf-8" ++ dq ++ "/><meta name=" ++ dq
        ++ "viewport" ++ dq ++ " content=" ++ dq
        ++ "width=device-width, initial-scale=1" ++ dq ++ "/>";
      "<title>" ++ title ++ "</title>";
      "</head><body>";
      "<h1>Top-3 gợi ý</h1>";
      "<p>Dữ liệu đến: " ++ as_of ++ "</p>";
      "<" ++ tag ++ ">";
      items;
      "</" ++ tag ++ ">";
      "<p style=" ++ dq ++ "color:red" ++ dq ++ ">" ++ disclaimer ++ "</p>";
      "</body></html>" ].

(** The text [rebuild_html] writes to [index.html]; formatting the date is
    what can raise. *)
Definition html_full (feature_df : list feat) (latest_day : option Z)
  (topk : nat) : result string :=
  as_of <- data_as_of latest_day ;;
  Ok (page "XSMB Top-3 dự đoán" "ul" as_of
           (concat_all (map item (head topk feature_df)))).

(** The text [rebuild_html_compact] writes to [index_top3_only.html]. *)
Definition html_compact (feature_df : list feat) (latest_day : option Z)
  (topk : nat) : result string :=
  as_of <- data_as_of latest_day ;;
  Ok (page "XSMB Top-3 (Compact)" "ol" as_of
           (concat_all (map item_compact (head topk feature_df)))).

End Render.

End Report.

(** ** The world of one run *)

Inductive file_op : Type :=
| ReadCsv        (* pd.read_csv(CSV_PATH) *)
| WriteCsv       (* df.to_csv(CSV_PATH) *)
| WriteIndex     (* index.html written *)
| WriteCompact.  (* index_top3_only.html written *)

Inductive message : Type :=
| MsgAdded (today : string)  (* "Đã thêm dữ liệu ngày", today *)
| MsgFailed (e : exn).       (* "Không lấy được dữ liệu mới:", e *)

Record world : Type := mkWorld {
  csv_file : option history;          (* xsmb_history.csv, when it exists,
                                         as the table read_csv yields *)
  index_html : option string;
  index_top3_only_html : option string;
  stdout : list message;
  trace : list file_op
}.

(** What one run meets outside: the answer to the GET and the clock. *)
Inductive http_answer : Type :=
| NoAnswer                               (* requests.get raised *)
| Response (status : Z) (text : string).

Record env : Type := mkEnv {
  answer : http_answer;
  now : string                           (* datetime.now().strftime("%Y-%m-%d") *)
}.

(** State and exceptions. *)
Definition io (A : Type) : Type := world -> world * result A.

Definition ret {A : Type} (a : A) : io A := fun w => (w, Ok a).

Definition lift {A : Type} (r : result A) : io A := fun w => (w, r).

Definition io_bind {A B : Type} (m : io A) (k : A -> io B) : io B :=
  fun w =>
    match m w with
    | (w', Ok a) => k a w'
    | (w', Raise e) => (w', Raise e)
    end.

(** [try: m except Exception as e: h e]; what [m] did before raising stays. *)
Definition try_except {A : Type} (m : io A) (h : exn -> io A) : io A :=
  fun w =>
    match m w with
    | (w', Raise e) => h e w'
    | r => r
    end.

Declare Scope io_scope.
Delimit Scope io_scope with io.
Notation "x <- m ;; k" := (io_bind m (fun x => k))
  (at level 61, m at next level, right associativity) : io_scope.

Definition log (op : file_op) (w : world) : world :=
  mkWorld (csv_file w) (index_html w) (index_top3_only_html w) (stdout w)
          (trace w ++ [op]).

(** Line 127: the table read from the file, or an empty one. *)
Definition load_history : io history :=
  fun w =>
    match csv_file w with
    | Some df => (log ReadCsv w, Ok df)
    | None => (w, Ok [])
    end.

Definition to_csv (df : history) : io unit :=
  fun w =>
    (log WriteCsv
       (mkWorld (Some df) (index_html w) (index_top3_only_html w) (stdout w)
                (trace w)), Ok tt).

Definition print (m : message) : io unit :=
  fun w =>
    (mkWorld (csv_file w) (index_html w) (index_top3_only_html w)
             (stdout w ++ [m]) (trace w), Ok tt).

Definition write_index (html : string) : io unit :=
  fun w =>
    (log WriteIndex
       (mkWorld (csv_file w) (Some html) (index_top3_only_html w) (stdout w)
                (trace w)), Ok tt).

Definition write_compact (html : string) : io unit :=
  fun w =>
    (log WriteCompact
       (mkWorld (csv_file w) (index_html w) (Some html) (stdout w)
                (trace w)), Ok tt).

(** The history a world holds: the rows of the file, none when it is absent. *)
Definition stored (w : world) : history :=
  match csv_file w with
  | Some df => df
  | None => []
  end.

(** ** fetch_latest_from_ketqua and main *)

Section Pipeline.

Variable to_datetime : string -> option Z.
Variable strftime : Z -> result string.
Variable format_3f : option R -> string.
(** [BeautifulSoup(html, "html.parser")]: the tree is never read, the call
    returns or raises. *)
Variable html_parser : string -> result unit.
(** [re.findall(r"\b\d{2,5}\b", html)] *)
Variable findall : string -> list string.

(** [r.raise_for_status()] raises on a 4xx or 5xx status. *)
Definition raise_for_status (status : Z) : result unit :=
  if (400 <=? status) && (status <? 600) then Raise (HTTPError status)
  else Ok tt.

(** Line 36, one element: [str(int(x[-2:])).zfill(2)]. *)
Definition last2_of (x : string) : result string :=
  match Text.int (Text.last_two x) with
  | Some n => Ok (Report.pad2 n)
  | None => Raise ValueError
  end.

Fixpoint last2_all (nums : list string) : result (list string) :=
  match nums with
  | [] => Ok []
  | x :: rest =>
      y <- last2_of x ;;
      ys <- last2_all rest ;;
      Ok (y :: ys)
  end.

(** Lines 23-39. *)
Definition fetch_latest_from_ketqua (e : env)
  : result (string * string * list string) :=
  match answer e with
  | NoAnswer => Raise ConnectionError
  | Response status html =>
      _ <- raise_for_status status ;;
      _ <- html_parser html ;;
      let nums := findall html in
      match nums with
      | [] => Raise RuntimeError
      | _ =>
          last2 <- last2_all nums ;;
          Ok (now e, Text.join_sp nums, last2)
      end
  end.

(** [today not in df["date"].astype(str).values] *)
Definition today_absent (today : string) (df : history) : bool :=
  negb (existsb (String.eqb today) (map date df)).

(** Lines 130-135: the body of the [try]. *)
Definition fetch_and_append (force : bool) (e : env) (df : history)
  : io history :=
  (f <- lift (fetch_latest_from_ketqua e) ;;
   let '(today, prizes, _) := f in
   if force || today_absent today df then
     let df' := df ++ [mkRow today prizes] in
     _ <- to_csv df' ;;
     _ <- print (MsgAdded today) ;;
     ret df'
   else ret df)%io.

Definition rebuild_html (feature_df : list feat) (latest_day : option Z)
  : io unit :=
  (html <- lift (Report.html_full strftime format_3f feature_df latest_day 3) ;;
   write_index html)%io.

Definition rebuild_html_compact (feature_df : list feat)
  (latest_day : option Z) : io unit :=
  (html <- lift (Report.html_compact strftime format_3f feature_df
                   latest_day 3) ;;
   write_compact html)%io.

(** Lines 139-141: features and the two reports from a table. *)
Definition render (df : history) : io unit :=
  (fl <- lift (build_features to_datetime df) ;;
   _ <- rebuild_html (fst fl) (snd fl) ;;
   rebuild_html_compact (fst fl) (snd fl))%io.

Definition main (force : bool) (e : env) : io unit :=
  (df <- load_history ;;
   df <- try_except (fetch_and_append force e df)
                    (fun ex => _ <- print (MsgFailed ex) ;; ret df) ;;
   render df)%io.

(** The world after a run, whatever its outcome. *)
Definition run (force : bool) (e : env) (w : world) : world :=
  fst (main force e w).

End Pipeline.

(** ** The regular expression of the fetcher

    [re.findall(r"\b\d{2,5}\b", html)] on code points below 256: a match
    starts and ends at a word boundary, so it is a maximal run of word
    characters that consists of two to five decimal digits. *)

Module Regex.

(** [\w]: alphanumeric characters and the underscore. *)
Definition isword (c : ascii) : bool :=
  let n := Text.code c in
  Text.isdigit c
  || ((65 <=? n) && (n <=? 90)) || ((97 <=? n) && (n <=? 122)) || (n =? 95)
  || (n =? 170) || (n =? 178) || (n =? 179) || (n =? 181) || (n =? 185)
  || (n =? 186) || ((188 <=? n) && (n <=? 190))
  || ((192 <=? n) && (n <=? 214)) || ((216 <=? n) && (n <=? 246))
  || ((248 <=? n) && (n <=? 255)).

(** The maximal runs of word characters. *)
Fixpoint words_from (tok s : string) : list string :=
  match s with
  | EmptyString => Text.flush tok
  | String c s' =>
      if isword c then words_from (tok ++ String c EmptyString) s'
      else Text.flush tok ++ words_from EmptyString s'
  end.

Definition is_number (w : string) : bool :=
  forallb Text.isdigit (list_ascii_of_string w)
  && (2 <=? String.length w)%nat && (String.length w <=? 5)%nat.

Definition findall (html : string) : list string :=
  filter is_number (words_from EmptyString html).

End Regex.

(** ** The HTML parser of the fetcher

    [html.parser] raises on a marked section whose keyword it does not
    know, as in [<![x]; the call of line 29 passes that on.  The instance
    below accepts the pages that open no marked section, which the parser
    accepts, and rejects the others. *)

Module Soup.

Fixpoint has_marked_section (s : string) : bool :=
  match s with
  | EmptyString => false
  | String _ s' => String.prefix "<![" s || has_marked_section s'
  end.

Definition html_parser (html : string) : result unit :=
  if has_marked_section html then Raise ParserRejectedMarkup else Ok tt.

End Soup.

(** ** Vocabulary of the statements *)

(** The order of [sort_values], as a proposition. *)
Definition feat_le (a b : feat) : Prop :=
  match score a, score b with
  | Some x, Some y => (y < x)%R \/ (x = y /\ num a <= num b)
  | Some _, None => True
  | None, Some _ => False
  | None, None => num a <= num b
  end.

(** Descending scores, a NaN score after every other. *)
Definition score_ge (a b : option R) : Prop :=
  match a, b with
  | Some x, Some y => (y <= x)%R
  | _, None => True
  | None, Some _ => False
  end.

(** The three count columns of a feature row. *)
Definition feat_counts (r : feat) : Z * Z * option Z :=
  (num r, freq_30d r, recency_days r).

Definition is_some {A : Type} (o : option A) : bool :=
  match o with
  | Some _ => true
  | None => false
  end.

(** A token the loop of [build_features] accepts: shorter than two
    characters (skipped) or ending in a literal [int] reads. *)
Definition token_ok (s : string) : bool :=
  (String.length s <? 2)%nat || is_some (Text.int (Text.last_two s)).

(** A token made of decimal digits only, as the fetcher writes them. *)
Definition digit_token (s : string) : bool :=
  forallb Text.isdigit (list_ascii_of_string s).

Section Wellformed.

Variable to_datetime : string -> option Z.

Definition row_ok (r : row) : bool :=
  is_some (to_datetime (date r))
  && forallb token_ok (Text.split (all_prizes r)).

(** A table on which [build_features] raises nothing. *)
Definition well_formed (df : history) : bool := forallb row_ok df.

Definition row_digits (r : row) : bool :=
  is_some (to_datetime (date r))
  && forallb digit_token (Text.split (all_prizes r)).

(** A table whose dates parse and whose prize tokens are digit strings. *)
Definition digit_history (df : history) : bool := forallb row_digits df.

End Wellformed.

(** The entries of [hist] in the window that ends at [latest_day]. *)
Definition window_entries (hist : list entry) (latest_day : option Z)
  : list entry :=
  match latest_day with
  | Some d => in_window (d - 29) hist
  | None => []
  end.


(** In exact arithmetic the rescaled series moreover has mean zero, and
    standard deviation one unless [sd] is zero. *)
Definition standardized (s z : Series.t) : Prop :=
  exists m sd d : R,
    Series.mean s = Some m /\ Series.std s = Some sd /\
    Series.or_one (Series.std s) = Some d /\
    z = map (fun x => Series.lift2 Rdiv (Series.lift2 Rminus x (Some m)) (Some d)) s /\
    (0 < d)%R /\
    (sd <> 0%R -> d = sd) /\ (sd = 0%R -> d = 1%R) /\
    Series.mean z = Some 0%R /\
    (sd <> 0%R -> Series.std z = Some 1%R).

(** How often a file operation occurs in a trace. *)
Definition file_op_eqb (a b : file_op) : bool :=
  match a, b with
  | ReadCsv, ReadCsv | WriteCsv, WriteCsv
  | WriteIndex, WriteIndex | WriteCompact, WriteCompact => true
  | _, _ => false
  end.

Definition count_op (op : file_op) (tr : list file_op) : nat :=
  List.length (filter (file_op_eqb op) tr).

(** The rows of a table that carry a given date. *)
Definition dated (today : string) (df : history) : history :=
  filter (fun r => String.eqb today (date r)) df.

(** A world with a history file and nothing else. *)
Definition world_of (df : option history) : world :=
  mkWorld df None None [] [].

(** The world after [load_history]. *)
Definition loaded (w : world) : world :=
  match csv_file w with
  | Some _ => log ReadCsv w
  | None => w
  end.

Definition printed (m : message) (w : world) : world := fst (print m w).

Definition saved (df : history) (w : world) : world := fst (to_csv df w).

(** The world after the two reports were written. *)
Definition reported (full compact : string) (w : world) : world :=
  fst (write_compact compact (fst (write_index full w))).

(** The two list items a row of the neutral table renders to. *)
Definition neutral_item (format_3f : option R -> string) (nn : string)
  : string :=
  ("<li>" ++ nn ++ " – score " ++ format_3f (Some 0%R)
   ++ ", 30d: 0, recency:  ngày</li>")%string.

Definition neutral_item_compact (format_3f : option R -> string)
  (nn : string) : string :=
  ("<li>" ++ nn ++ " – score " ++ format_3f (Some 0%R) ++ "</li>")%string.

(** ** Sample tables *)

(** The example of the specification: one day, two prizes. *)
Definition one_day : history := [mkRow "2024-01-01" "12345 234"].

(** One day on which 31 prizes end in 12. *)
Definition crowded_day : history :=
  [mkRow "2024-01-01"
     "12 12 12 12 12 12 12 12 12 12 12 12 12 12 12 12 12 12 12 12 12 12 12 12 12 12 12 12 12 12 12"].

(** A table that is not empty but records no prize of two digits or more. *)
Definition short_token_day : history := [mkRow "2024-01-01" "7"].

(** A table whose only prize carries a sign. *)
Definition signed_day : history := [mkRow "2024-01-01" "-5"].

(** A table with a prize that [int] cannot read. *)
Definition unread_day : history := [mkRow "2024-01-01" "12 ab"].

(** Two answers of the results page and a failed GET, on given days. *)
Definition page_env (today : string) : env :=
  mkEnv (Response 200 "<td>12345</td> <td>234</td>") today.

Definition offline_env (today : string) : env := mkEnv NoAnswer today.

(** ** Vocabulary of the further properties *)

(** The number a string of decimal digits denotes, after the digits [acc]. *)
Fixpoint digits_val (acc : Z) (s : string) : Z :=
  match s with
  | EmptyString => acc
  | String c s' => digits_val (10 * acc + (Text.code c - 48)) s'
  end.

(** A string without white space. *)
Definition no_space (s : string) : bool :=
  forallb (fun c => negb (Text.isspace c)) (list_ascii_of_string s).

(** What [int] yields compared with [n]. *)
Definition reads_as (o : option Z) (n : Z) : bool :=
  match o with
  | Some m => m =? n
  | None => false
  end.

(** [a] counts as at least as cold as [b]: it was never drawn, or both were
    and [a] longer ago. *)
Definition colder (a b : option Z) : Prop :=
  match a, b with
  | None, _ => True
  | Some x, Some y => y <= x
  | Some _, None => False
  end.

(** The recency of line 69: the days since the value was seen, or [M] for a
    value never seen. *)
Definition filled (M : R) (rec : option Z) : R :=
  match rec with
  | Some v => IZR v
  | None => M
  end.

(** Two days in both orders, the earlier one more than 30 days before. *)
Definition two_days : history :=
  [mkRow "2024-01-01" "12345 234"; mkRow "2024-03-01" "00045 99"].

Definition two_days_swapped : history :=
  [mkRow "2024-03-01" "00045 99"; mkRow "2024-01-01" "12345 234"].

(** * Properties *)

(** ** Sorting *)

Section SortFacts.

Variable A : Type.
Variable leb : A -> A -> bool.

Lemma insert_sorted_perm (x : A) (l : list A) :
  Permutation (x :: l) (insert_sorted leb x l).
Proof.
  induction l as [|y l IH]; simpl.
  - apply Permutation_refl.
  - destruct (leb x y).
    + apply Permutation_refl.
    + eapply Permutation_trans; [apply perm_swap|].
      apply perm_skip. exact IH.
Qed.

Lemma sort_by_perm (l : list A) : Permutation l (sort_by leb l).
Proof.
  induction l as [|x l IH]; simpl.
  - constructor.
  - eapply Permutation_trans; [|apply insert_sorted_perm].
    apply perm_skip. exact IH.
Qed.

Hypothesis leb_total : forall a b, leb a b = true \/ leb b a = true.
Hypothesis leb_trans :
  forall a b c, leb a b = true -> leb b c = true -> leb a c = true.

Lemma insert_sorted_sorted (x : A) (l : list A) :
  StronglySorted (fun a b => leb a b = true) l ->
  StronglySorted (fun a b => leb a b = true) (insert_sorted leb x l).
Proof.
  induction 1 as [|y l Hs IH Hall]; simpl.
  - repeat constructor.
  - destruct (leb x y) eqn:Hxy.
    + constructor; [constructor; assumption|].
      constructor; [exact Hxy|].
      eapply Forall_impl; [|exact Hall].
      intros z Hz. eapply leb_trans; eassumption.
    + constructor; [exact IH|].
      eapply Permutation_Forall; [apply insert_sorted_perm|].
      constructor; [|exact Hall].
      destruct (leb_total x y) as [H|H]; [congruence|exact H].
Qed.

Lemma sort_by_sorted (l : list A) :
  StronglySorted (fun a b => leb a b = true) (sort_by leb l).
Proof.
  induction l as [|x l IH]; simpl.
  - constructor.
  - apply insert_sorted_sorted. exact IH.
Qed.

End SortFacts.

Lemma StronglySorted_nth_error {A : Type} (R : A -> A -> Prop) (l : list A) :
  StronglySorted R l ->
  forall (i j : nat) (a b : A),
    (i < j)%nat -> nth_error l i = Some a -> nth_error l j = Some b -> R a b.
Proof.
  induction 1 as [|x l Hs IH Hall]; intros i j a b Hij Hi Hj.
  - destruct i; discriminate.
  - destruct j as [|j]; [lia|].
    destruct i as [|i]; simpl in Hi, Hj.
    + injection Hi as <-.
      rewrite Forall_forall in Hall. apply Hall.
      eapply nth_error_In; eassumption.
    + eapply IH; [|eassumption|eassumption]. lia.
Qed.

Lemma StronglySorted_map {A B : Type} (R : A -> A -> Prop)
  (Q : B -> B -> Prop) (f : A -> B) (l : list A) :
  (forall x y, R x y -> Q (f x) (f y)) ->
  StronglySorted R l -> StronglySorted Q (map f l).
Proof.
  intros HRQ. induction 1 as [|x l Hs IH Hall]; simpl; constructor.
  - exact IH.
  - rewrite Forall_forall in *. intros y Hy.
    apply in_map_iff in Hy. destruct Hy as [z [<- Hz]]. auto.
Qed.

Lemma seq_strictly_sorted (a n : nat) : StronglySorted lt (seq a n).
Proof.
  revert a. induction n as [|n IH]; intros a; simpl; constructor.
  - apply IH.
  - rewrite Forall_forall. intros y Hy. apply in_seq in Hy. lia.
Qed.

Lemma range100_sorted : StronglySorted Z.lt range100.
Proof.
  unfold range100. eapply StronglySorted_map; [|apply seq_strictly_sorted].
  intros x y H. lia.
Qed.

Lemma range100_spec (n : Z) : In n range100 <-> 0 <= n < 100.
Proof.
  unfold range100. rewrite in_map_iff. split.
  - intros [k [<- Hk]]. apply in_seq in Hk. lia.
  - intros H. exists (Z.to_nat n). split; [lia|]. apply in_seq. lia.
Qed.

Lemma range100_NoDup : NoDup range100.
Proof.
  unfold range100. apply Injective_map_NoDup.
  - intros x y H. lia.
  - apply seq_NoDup.
Qed.

Lemma feat_leb_spec (a b : feat) : feat_leb a b = true <-> feat_le a b.
Proof.
  unfold feat_leb, feat_le, score_before, score_same.
  destruct (score a) as [x|], (score b) as [y|]; simpl.
  - destruct (Rlt_dec y x) as [H|H]; simpl.
    + split; auto.
    + destruct (Req_dec_T x y) as [E|E]; simpl.
      * rewrite Z.leb_le. split; [auto|]. intros [H'|[_ H']]; [contradiction|exact H'].
      * split; [discriminate|]. intros [H'|[H' _]]; contradiction.
  - split; auto.
  - split; [discriminate|contradiction].
  - apply Z.leb_le.
Qed.

Lemma feat_le_total (a b : feat) : feat_le a b \/ feat_le b a.
Proof.
  unfold feat_le.
  destruct (score a) as [x|], (score b) as [y|]; auto.
  - destruct (Rtotal_order x y) as [H|[H|H]]; auto.
    destruct (Z.le_ge_cases (num a) (num b)); [left|right]; right; split; auto.
  - lia.
Qed.

Lemma feat_le_trans (a b c : feat) : feat_le a b -> feat_le b c -> feat_le a c.
Proof.
  unfold feat_le.
  destruct (score a) as [x|], (score b) as [y|], (score c) as [z|];
    try tauto; try lia.
  intros [H1|[H1 H1']] [H2|[H2 H2']].
  - left. lra.
  - left. lra.
  - left. lra.
  - right. split; [lra|lia].
Qed.

Lemma sort_values_perm (l : list feat) : Permutation l (sort_values l).
Proof. apply sort_by_perm. Qed.

Lemma sort_values_sorted (l : list feat) : StronglySorted feat_le (sort_values l).
Proof.
  unfold sort_values.
  assert (H : StronglySorted (fun a b => feat_leb a b = true) (sort_by feat_leb l)).
  { apply sort_by_sorted.
    - intros a b. rewrite !feat_leb_spec. apply feat_le_total.
    - intros a b c. rewrite !feat_leb_spec. apply feat_le_trans. }
  rewrite <- (map_id (sort_by feat_leb l)).
  eapply StronglySorted_map; [|exact H].
  intros x y Hxy. apply feat_leb_spec. exact Hxy.
Qed.

(** ** The shape of build_features *)

Lemma Ok_pair_inj {A B : Type} (a a' : A) (b b' : B) :
  @Ok (A * B) (a, b) = Ok (a', b') -> a = a' /\ b = b'.
Proof. intros H. inversion H. split; reflexivity. Qed.

Lemma Some_inj {A : Type} (a b : A) : Some a = Some b -> a = b.
Proof. intros H. inversion H. reflexivity. Qed.

Section BuildFeaturesFacts.

Variable to_datetime : string -> option Z.

Lemma build_features_empty (df : history) :
  hist_rows to_datetime df = Ok [] -> build_features to_datetime df = Ok (empty_table, None).
Proof. unfold build_features. intros ->. reflexivity. Qed.

Lemma build_features_nonempty (df : history) (e : entry) (es : list entry) :
  hist_rows to_datetime df = Ok (e :: es) ->
  build_features to_datetime df =
    Ok (sort_values (with_score (snd (count_table e es))),
        Some (fst (count_table e es))).
Proof. unfold build_features. intros ->. reflexivity. Qed.

Lemma build_features_raise (df : history) (x : exn) :
  hist_rows to_datetime df = Raise x -> build_features to_datetime df = Raise x.
Proof. unfold build_features. intros ->. reflexivity. Qed.

Lemma build_features_inv (df : history) (t : list feat) (ld : option Z) :
  build_features to_datetime df = Ok (t, ld) ->
  exists hist, hist_rows to_datetime df = Ok hist /\
    ((hist = [] /\ t = empty_table /\ ld = None) \/
     (exists e es, hist = e :: es /\
        t = sort_values (with_score (snd (count_table e es))) /\
        ld = Some (fst (count_table e es)))).
Proof.
  intros H. destruct (hist_rows to_datetime df) as [hist|x] eqn:E.
  - exists hist. split; [reflexivity|]. destruct hist as [|e es].
    + rewrite (build_features_empty _ E) in H.
      apply Ok_pair_inj in H. destruct H as [<- <-]. left. repeat split.
    + rewrite (build_features_nonempty _ _ _ E) in H.
      apply Ok_pair_inj in H. destruct H as [<- <-].
      right. exists e, es. repeat split.
  - rewrite (build_features_raise _ _ E) in H. discriminate.
Qed.

(** The rows the loop accepts are the well-formed ones. *)
Lemma tokens_entries_cons (d : Z) (s : string) (toks : list string) :
  tokens_entries d (s :: toks) =
    if (2 <=? String.length s)%nat then
      match Text.int (Text.last_two s) with
      | Some n => es <- tokens_entries d toks ;; Ok (mkEntry d n :: es)
      | None => Raise ValueError
      end
    else tokens_entries d toks.
Proof. reflexivity. Qed.

Lemma tokens_entries_total (d : Z) (toks : list string) :
  forallb token_ok toks = true -> exists es, tokens_entries d toks = Ok es.
Proof.
  induction toks as [|s toks IH]; intros H.
  - exists []. reflexivity.
  - cbn [forallb] in H. apply andb_prop in H. destruct H as [Hs Ht].
    destruct (IH Ht) as [es Hes]. unfold token_ok in Hs.
    rewrite tokens_entries_cons, Hes.
    destruct (2 <=? String.length s)%nat eqn:L; [|eauto].
    destruct (String.length s <? 2)%nat eqn:L'.
    { apply Nat.leb_le in L. apply Nat.ltb_lt in L'. lia. }
    cbn [orb] in Hs. destruct (Text.int (Text.last_two s)); [|discriminate].
    cbn [bind]. eauto.
Qed.

Lemma hist_rows_total (df : history) :
  well_formed to_datetime df = true -> exists hist, hist_rows to_datetime df = Ok hist.
Proof.
  induction df as [|r df IH]; simpl; intros H.
  - eauto.
  - apply andb_prop in H. destruct H as [Hr Hdf].
    unfold row_ok in Hr. apply andb_prop in Hr. destruct Hr as [Hd Ht].
    destruct (to_datetime (date r)) as [d|]; [|discriminate].
    destruct (tokens_entries_total d _ Ht) as [es ->].
    destruct (IH Hdf) as [es' ->]. simpl. eauto.
Qed.

Lemma build_features_total (df : history) :
  well_formed to_datetime df = true ->
  exists t ld, build_features to_datetime df = Ok (t, ld).
Proof.
  intros H. destruct (hist_rows_total df H) as [[|e es] E].
  - rewrite (build_features_empty _ E). eauto.
  - rewrite (build_features_nonempty _ _ _ E). eauto.
Qed.

(** The count columns of the scored table are the table [out]. *)
Lemma blend_length (a b : Series.t) :
  List.length a = List.length b -> List.length (Series.blend a b) = List.length a.
Proof.
  intros H. unfold Series.blend. rewrite length_map, length_combine. lia.
Qed.

Lemma zscore_length (s : Series.t) : List.length (Series.zscore s) = List.length s.
Proof. unfold Series.zscore. apply length_map. Qed.

Lemma scores_length (out : list (Z * Z * option Z)) :
  List.length (Series.blend (z_hot out) (z_cold out)) = List.length out.
Proof.
  rewrite blend_length; unfold z_hot, z_cold, rc, freq_col, recency_col, Series.fillna;
    rewrite !zscore_length, !length_map; reflexivity.
Qed.

Lemma with_score_counts (out : list (Z * Z * option Z)) :
  map feat_counts (with_score out) = out.
Proof.
  unfold with_score.
  generalize (scores_length out).
  generalize (Series.blend (z_hot out) (z_cold out)) as bl.
  induction out as [|[[n f] r] out IH]; intros [|b bl] H; simpl in *;
    try discriminate; try reflexivity.
  f_equal. apply IH. lia.
Qed.

Lemma count_table_nums (e : entry) (es : list entry) :
  map (fun r => fst (fst r)) (snd (count_table e es)) = range100.
Proof.
  unfold count_table. cbn [snd]. rewrite map_map. cbn [fst]. apply map_id.
Qed.

Lemma empty_table_counts :
  map feat_counts empty_table = map (fun n => (n, 0, None)) range100.
Proof. unfold empty_table. rewrite map_map. reflexivity. Qed.

Lemma feat_counts_num (t : list feat) :
  map num t = map (fun r => fst (fst r)) (map feat_counts t).
Proof. rewrite map_map. reflexivity. Qed.

Lemma build_features_nums (df : history) (t : list feat) (ld : option Z) :
  build_features to_datetime df = Ok (t, ld) -> Permutation (map num t) range100.
Proof.
  intros H. apply build_features_inv in H.
  destruct H as [hist [_ [[_ [-> _]]|[e [es [_ [-> _]]]]]]].
  - rewrite feat_counts_num, empty_table_counts, map_map. cbn [fst].
    rewrite map_id. apply Permutation_refl.
  - eapply Permutation_trans.
    + apply Permutation_map. apply Permutation_sym. apply sort_values_perm.
    + rewrite feat_counts_num, with_score_counts, count_table_nums.
      apply Permutation_refl.
Qed.

(** C1. For every history table on which [build_features] returns, the
    feature table has exactly 100 rows and its [num] column holds the
    integers 0 to 99, each exactly once; and [build_features] does return on
    every table whose dates parse and whose tokens of two or more characters
    end in a numeric literal. *)
Theorem build_features_covers_0_99 :
  (forall (df : history) (t : list feat) (ld : option Z),
      build_features to_datetime df = Ok (t, ld) ->
      List.length t = 100%nat /\
      Permutation (map num t) range100 /\
      (forall n, 0 <= n < 100 -> count_occ Z.eq_dec (map num t) n = 1%nat) /\
      (forall n, In n (map num t) -> 0 <= n < 100)) /\
  (forall df : history,
      well_formed to_datetime df = true ->
      exists t ld, build_features to_datetime df = Ok (t, ld)).
Proof.
  split; [|apply build_features_total].
  intros df t ld H. pose proof (build_features_nums _ _ _ H) as P.
  repeat split.
  - rewrite <- (length_map num). rewrite (Permutation_length P). reflexivity.
  - exact P.
  - intros n Hn.
    rewrite (Permutation_count_occ Z.eq_dec (map num t) range100) in P.
    rewrite P. apply NoDup_count_occ'; [apply range100_NoDup|].
    apply range100_spec. exact Hn.
  - apply range100_spec. eapply Permutation_in; eassumption.
  - apply range100_spec. eapply Permutation_in; eassumption.
Qed.

Lemma empty_table_sorted : StronglySorted feat_le empty_table.
Proof.
  unfold empty_table.
  eapply StronglySorted_map; [|apply range100_sorted].
  intros x y Hxy. unfold feat_le. cbn [score num]. right. split; [reflexivity|lia].
Qed.

Lemma build_features_strongly_sorted (df : history) (t : list feat)
  (ld : option Z) :
  build_features to_datetime df = Ok (t, ld) -> StronglySorted feat_le t.
Proof.
  intros H. apply build_features_inv in H.
  destruct H as [hist [_ [[_ [-> _]]|[e [es [_ [-> _]]]]]]].
  - apply empty_table_sorted.
  - apply sort_values_sorted.
Qed.

Lemma build_features_nums_NoDup (df : history) (t : list feat) (ld : option Z) :
  build_features to_datetime df = Ok (t, ld) -> NoDup (map num t).
Proof.
  intros H. eapply Permutation_NoDup.
  - apply Permutation_sym. eapply build_features_nums. exact H.
  - apply range100_NoDup.
Qed.

(** C5. In the table [build_features] returns, a row that comes before
    another has a score at least as high (a NaN score comes last), and of
    two rows with the same score the one with the smaller [num] comes
    first. *)
Theorem build_features_sorted (df : history) (t : list feat) (ld : option Z)
  (i j : nat) (a b : feat) :
  build_features to_datetime df = Ok (t, ld) ->
  (i < j)%nat -> nth_error t i = Some a -> nth_error t j = Some b ->
  score_ge (score a) (score b) /\ (score a = score b -> num a < num b).
Proof.
  intros H Hij Ha Hb.
  pose proof (build_features_strongly_sorted _ _ _ H) as Hs.
  pose proof (StronglySorted_nth_error feat_le t Hs i j a b Hij Ha Hb) as Hab.
  assert (Hne : num a <> num b).
  { intros Heq.
    pose proof (build_features_nums_NoDup _ _ _ H) as Hnd.
    rewrite NoDup_nth_error in Hnd.
    assert (Hi : (i < List.length (map num t))%nat).
    { rewrite length_map. apply nth_error_Some. congruence. }
    specialize (Hnd i j Hi).
    rewrite (map_nth_error num _ _ Ha), (map_nth_error num _ _ Hb) in Hnd.
    rewrite Heq in Hnd. specialize (Hnd eq_refl). lia. }
  unfold feat_le in Hab. unfold score_ge.
  destruct (score a) as [x|], (score b) as [y|]; try contradiction.
  - split.
    + destruct Hab as [Hlt|[-> _]]; [lra|apply Rle_refl].
    + intros E. injection E as E. destruct Hab as [Hlt|[_ Hle]]; [lra|lia].
  - split; [exact I|discriminate].
  - split; [exact I|]. intros _. lia.
Qed.

End BuildFeaturesFacts.

(** ** The count columns *)

Lemma fold_max_ge_init (l : list Z) (a : Z) : a <= fold_left Z.max l a.
Proof.
  revert a. induction l as [|x l IH]; intros a; simpl; [lia|].
  specialize (IH (Z.max a x)). lia.
Qed.

Lemma fold_max_ge_elem (l : list Z) (a x : Z) :
  In x l -> x <= fold_left Z.max l a.
Proof.
  revert a. induction l as [|y l IH]; intros a Hx; simpl; [contradiction|].
  destruct Hx as [->|Hx].
  - pose proof (fold_max_ge_init l (Z.max a x)). lia.
  - apply IH. exact Hx.
Qed.

Lemma fold_max_attained (l : list Z) (a : Z) :
  fold_left Z.max l a = a \/ In (fold_left Z.max l a) l.
Proof.
  revert a. induction l as [|y l IH]; intros a; simpl; [auto|].
  destruct (IH (Z.max a y)) as [H|H]; [|auto].
  rewrite H. destruct (Z.max_spec a y) as [[_ ->]|[_ ->]]; auto.
Qed.

Lemma max_date_ge (e : entry) (es : list entry) (x : entry) :
  In x (e :: es) -> e_date x <= max_date e es.
Proof.
  unfold max_date. intros [<-|Hx].
  - apply fold_max_ge_init.
  - apply fold_max_ge_elem. apply in_map. exact Hx.
Qed.

Lemma max_date_attained (e : entry) (es : list entry) :
  exists x, In x (e :: es) /\ e_date x = max_date e es.
Proof.
  unfold max_date.
  destruct (fold_max_attained (map e_date es) (e_date e)) as [H|H].
  - exists e. split; [left; reflexivity|symmetry; exact H].
  - apply in_map_iff in H. destruct H as [x [Hx Hin]].
    exists x. split; [right; exact Hin|exact Hx].
Qed.

Lemma group_spec (hist : list entry) (n : Z) (x : entry) :
  In x (group hist n) <-> In x hist /\ e_num x = n.
Proof. unfold group. rewrite filter_In, Z.eqb_eq. reflexivity. Qed.

Lemma size_at_length (hist : list entry) (n : Z) :
  size_at hist n = Z.of_nat (List.length (group hist n)).
Proof. unfold size_at. destruct (group hist n); reflexivity. Qed.

Lemma filter_length_le {A : Type} (f : A -> bool) (l : list A) :
  (List.length (filter f l) <= List.length l)%nat.
Proof.
  induction l as [|x l IH]; simpl; [lia|]. destruct (f x); simpl; lia.
Qed.

Lemma last_seen_defined (hist : list entry) (n : Z) :
  last_seen_at hist n <> None <-> exists x, In x hist /\ e_num x = n.
Proof.
  unfold last_seen_at. destruct (group hist n) as [|g gs] eqn:G.
  - split; [congruence|]. intros [x Hx]. apply group_spec in Hx.
    rewrite G in Hx. contradiction.
  - split; [|discriminate]. intros _. exists g. apply group_spec.
    rewrite G. left. reflexivity.
Qed.

Lemma last_seen_le (e : entry) (es : list entry) (n d : Z) :
  last_seen_at (e :: es) n = Some d -> d <= max_date e es.
Proof.
  unfold last_seen_at. destruct (group (e :: es) n) as [|g gs] eqn:G;
    [discriminate|].
  intros H. injection H as <-.
  destruct (max_date_attained g gs) as [x [Hx <-]].
  apply max_date_ge. rewrite <- G in Hx. apply group_spec in Hx. tauto.
Qed.

Lemma last_seen_latest (e : entry) (es : list entry) (x : entry) :
  In x (e :: es) -> e_date x = max_date e es ->
  last_seen_at (e :: es) (e_num x) = Some (max_date e es).
Proof.
  intros Hx Hd.
  destruct (last_seen_at (e :: es) (e_num x)) as [d|] eqn:L.
  - f_equal. pose proof (last_seen_le _ _ _ _ L) as Hle.
    unfold last_seen_at in L.
    destruct (group (e :: es) (e_num x)) as [|g gs] eqn:G; [discriminate|].
    injection L as <-.
    assert (Hin : In x (g :: gs)).
    { rewrite <- G. apply group_spec. auto. }
    pose proof (max_date_ge g gs x Hin). lia.
  - exfalso. revert L. apply last_seen_defined. exists x. auto.
Qed.

(** What a row of the count table holds. *)
Lemma count_table_rows (e : entry) (es : list entry) (c : Z * Z * option Z) :
  In c (snd (count_table e es)) <->
  (0 <= fst (fst c) < 100 /\
   snd (fst c) =
     size_at (in_window (max_date e es - 29) (e :: es)) (fst (fst c)) /\
   snd c =
     option_map (fun d => max_date e es - d)
                (last_seen_at (e :: es) (fst (fst c)))).
Proof.
  unfold count_table. cbn [snd]. rewrite in_map_iff. split.
  - intros [n [<- Hn]]. apply range100_spec in Hn. cbn [fst snd]. auto.
  - intros [Hn [Hf Hr]]. exists (fst (fst c)). split.
    + destruct c as [[n f] r]. cbn [fst snd] in *. subst. reflexivity.
    + apply range100_spec. exact Hn.
Qed.

Lemma count_table_latest (e : entry) (es : list entry) :
  fst (count_table e es) = max_date e es.
Proof. reflexivity. Qed.

Lemma sorted_rows (out : list (Z * Z * option Z)) (r : feat) :
  In r (sort_values (with_score out)) -> In (feat_counts r) out.
Proof.
  intros H. rewrite <- (with_score_counts out). apply in_map.
  eapply Permutation_in; [apply Permutation_sym, sort_values_perm|exact H].
Qed.

Lemma sorted_rows_inv (out : list (Z * Z * option Z)) (c : Z * Z * option Z) :
  In c out -> exists r, In r (sort_values (with_score out)) /\ feat_counts r = c.
Proof.
  intros H. rewrite <- (with_score_counts out) in H.
  apply in_map_iff in H. destruct H as [r [Hr Hin]].
  exists r. split; [|exact Hr].
  eapply Permutation_in; [apply sort_values_perm|exact Hin].
Qed.

(** ** Digit tokens *)

Lemma isdigit_code (c : ascii) :
  Text.isdigit c = true -> 48 <= Text.code c <= 57.
Proof. unfold Text.isdigit. cbv zeta. lia. Qed.

Lemma int_two_digits (c1 c2 : ascii) :
  Text.isdigit c1 = true -> Text.isdigit c2 = true ->
  Text.int (String c1 (String c2 EmptyString)) =
    Some (10 * (Text.code c1 - 48) + (Text.code c2 - 48)).
Proof.
  intros H1 H2.
  destruct c1 as [[] [] [] [] [] [] [] []]; try discriminate H1; clear H1;
    destruct c2 as [[] [] [] [] [] [] [] []]; try discriminate H2;
    reflexivity.
Qed.

Lemma last_two_chars (s : string) :
  (2 <= String.length s)%nat ->
  exists c1 c2,
    Text.last_two s = String c1 (String c2 EmptyString) /\
    In c1 (list_ascii_of_string s) /\ In c2 (list_ascii_of_string s).
Proof.
  unfold Text.last_two. induction s as [|c s IH]; simpl; intros L; [lia|].
  destruct s as [|c' s']; simpl in L; [lia|].
  destruct s' as [|c'' s''].
  - exists c, c'. simpl. auto.
  - destruct IH as [c1 [c2 [E [I1 I2]]]]; [simpl; lia|].
    exists c1, c2. split; [|split; right; assumption].
    rewrite <- E. simpl. rewrite Nat.sub_0_r. reflexivity.
Qed.

Lemma digit_token_value (s : string) :
  digit_token s = true -> (2 <= String.length s)%nat ->
  exists n, Text.int (Text.last_two s) = Some n /\ 0 <= n < 100.
Proof.
  intros Hd L. destruct (last_two_chars s L) as [c1 [c2 [E [I1 I2]]]].
  unfold digit_token in Hd. rewrite forallb_forall in Hd.
  pose proof (Hd _ I1) as D1. pose proof (Hd _ I2) as D2.
  rewrite E, (int_two_digits c1 c2 D1 D2).
  eexists. split; [reflexivity|].
  apply isdigit_code in D1. apply isdigit_code in D2. lia.
Qed.

Lemma digit_token_ok (s : string) : digit_token s = true -> token_ok s = true.
Proof.
  intros Hd. unfold token_ok.
  destruct (String.length s <? 2)%nat eqn:L; [reflexivity|].
  apply Nat.ltb_ge in L.
  destruct (digit_token_value s Hd L) as [n [-> _]]. reflexivity.
Qed.

Lemma tokens_entries_digits (d : Z) (toks : list string) (es : list entry) :
  forallb digit_token toks = true -> tokens_entries d toks = Ok es ->
  forall x, In x es -> e_date x = d /\ 0 <= e_num x < 100.
Proof.
  revert es. induction toks as [|s toks IH]; intros es Hd H.
  - cbn in H. injection H as <-. intros x [].
  - cbn [forallb] in Hd. apply andb_prop in Hd. destruct Hd as [Hs Ht].
    rewrite tokens_entries_cons in H.
    destruct (2 <=? String.length s)%nat eqn:L; [|eauto].
    apply Nat.leb_le in L.
    destruct (digit_token_value s Hs L) as [n [E Hn]]. rewrite E in H.
    destruct (tokens_entries d toks) as [es'|] eqn:T; [|discriminate].
    cbn [bind] in H. injection H as <-.
    intros x [<-|Hx]; [cbn; auto|]. eapply IH; eauto.
Qed.

Section DigitHistories.

Variable to_datetime : string -> option Z.

Lemma hist_rows_cons (r : row) (df : history) :
  hist_rows to_datetime (r :: df) =
    match to_datetime (date r) with
    | None => Raise DateParseError
    | Some d =>
        es <- tokens_entries d (Text.split (all_prizes r)) ;;
        es' <- hist_rows to_datetime df ;;
        Ok (es ++ es')
    end.
Proof. reflexivity. Qed.

Lemma digit_history_well_formed (df : history) :
  digit_history to_datetime df = true -> well_formed to_datetime df = true.
Proof.
  unfold digit_history, well_formed. rewrite !forallb_forall.
  intros H r Hr. specialize (H r Hr). unfold row_digits, row_ok in *.
  apply andb_prop in H. destruct H as [-> H]. cbn [andb].
  rewrite forallb_forall in *. intros s Hs. apply digit_token_ok. auto.
Qed.

Lemma hist_rows_digits (df : history) (hist : list entry) :
  digit_history to_datetime df = true ->
  hist_rows to_datetime df = Ok hist ->
  forall x, In x hist -> 0 <= e_num x < 100.
Proof.
  revert hist. induction df as [|r df IH]; intros hist Hd H.
  - cbn in H. injection H as <-. intros x [].
  - cbn [digit_history forallb] in Hd. apply andb_prop in Hd.
    destruct Hd as [Hr Hdf]. unfold row_digits in Hr.
    apply andb_prop in Hr. destruct Hr as [_ Ht].
    rewrite hist_rows_cons in H.
    destruct (to_datetime (date r)) as [d|]; [|discriminate].
    destruct (tokens_entries d (Text.split (all_prizes r))) as [es|] eqn:T;
      [|discriminate].
    destruct (hist_rows to_datetime df) as [es'|] eqn:Hh; [|discriminate].
    cbn [bind] in H. injection H as <-.
    intros x Hx. apply in_app_or in Hx. destruct Hx as [Hx|Hx].
    + eapply tokens_entries_digits; eauto.
    + eapply IH; eauto.
Qed.

End DigitHistories.

(** ** Frequency and recency *)

Section CountClaims.

Variable to_datetime : string -> option Z.

Lemma empty_table_rows (r : feat) :
  In r empty_table ->
  0 <= num r < 100 /\ freq_30d r = 0 /\ recency_days r = None
  /\ score r = Some 0%R.
Proof.
  unfold empty_table. rewrite in_map_iff. intros [n [<- Hn]].
  apply range100_spec in Hn. cbn. auto.
Qed.

(** The rows of a table computed from a non-empty [hist]. *)
Lemma build_features_rows (df : history) (t : list feat) (ld : Z) (r : feat) :
  build_features to_datetime df = Ok (t, Some ld) -> In r t ->
  exists e es,
    hist_rows to_datetime df = Ok (e :: es) /\ ld = max_date e es /\
    0 <= num r < 100 /\
    freq_30d r = size_at (in_window (ld - 29) (e :: es)) (num r) /\
    recency_days r =
      option_map (fun d => ld - d) (last_seen_at (e :: es) (num r)).
Proof.
  intros H Hr. apply build_features_inv in H.
  destruct H as [hist [Hh [[_ [_ Hld]]|[e [es [Eh [Et Hld]]]]]]];
    [discriminate Hld|].
  subst hist. rewrite count_table_latest in Hld. apply Some_inj in Hld.
  subst ld. exists e, es.
  rewrite Et in Hr. clear Et. apply sorted_rows in Hr.
  apply count_table_rows in Hr.
  unfold feat_counts in Hr. cbn [fst snd] in Hr.
  destruct Hr as [Hn [Hf Hrec]]. repeat split; try assumption; apply Hn.
Qed.

(** C2 (amended). [freq_30d] of a value is the number of entries of [hist]
    inside the 30-day window that carry this value: a non-negative integer,
    at most the number of entries in the window.  It counts drawn prizes,
    not days. *)
Theorem freq_30d_counts_window_entries (df : history) (t : list feat)
  (ld : option Z) (r : feat) :
  build_features to_datetime df = Ok (t, ld) -> In r t ->
  exists hist,
    hist_rows to_datetime df = Ok hist /\
    freq_30d r =
      Z.of_nat (List.length (group (window_entries hist ld) (num r))) /\
    0 <= freq_30d r <= Z.of_nat (List.length (window_entries hist ld)).
Proof.
  intros H Hr. destruct ld as [ld|].
  - destruct (build_features_rows _ _ _ _ H Hr)
      as [e [es [Hh [_ [_ [Hf _]]]]]].
    exists (e :: es). split; [exact Hh|].
    rewrite size_at_length in Hf. cbn [window_entries]. split; [exact Hf|].
    rewrite Hf. split; [lia|].
    apply Nat2Z.inj_le. apply filter_length_le.
  - apply build_features_inv in H.
    destruct H as [hist [Hh [[-> [-> _]]|[e [es [_ [_ Hld]]]]]]];
      [|discriminate].
    exists []. split; [exact Hh|].
    apply empty_table_rows in Hr. destruct Hr as [_ [-> _]].
    cbn. split; [reflexivity|lia].
Qed.

(** C10 (amended). Recency is defined for a value exactly when the value
    occurs in [hist], and a defined recency is never negative.  When [hist]
    is not empty (the table has a latest day), some entry lies on the latest
    day, every value of 0..99 drawn on that day has recency 0, and such a
    value exists when all prize tokens are digit strings. *)
Theorem recency_days_spec (df : history) (t : list feat) (ld : option Z) :
  build_features to_datetime df = Ok (t, ld) ->
  exists hist,
    hist_rows to_datetime df = Ok hist /\
    (forall r, In r t ->
       (recency_days r <> None <-> exists x, In x hist /\ e_num x = num r)) /\
    (forall r d, In r t -> recency_days r = Some d -> 0 <= d) /\
    (forall day, ld = Some day ->
       (exists x, In x hist /\ e_date x = day) /\
       (forall x, In x hist -> e_date x = day -> 0 <= e_num x < 100 ->
          exists r, In r t /\ num r = e_num x /\ recency_days r = Some 0) /\
       (digit_history to_datetime df = true ->
          exists r, In r t /\ recency_days r = Some 0)).
Proof.
  intros H. apply build_features_inv in H.
  destruct H as [hist [Hh [[Eh [Et Eld]]|[e [es [Eh [Et Eld]]]]]]];
    exists hist; subst hist; (split; [exact Hh|]).
  - subst t ld. split; [|split].
    + intros r Hr. apply empty_table_rows in Hr. destruct Hr as [_ [_ [-> _]]].
      split; [congruence|]. intros [x [[] _]].
    + intros r d Hr Hd. apply empty_table_rows in Hr.
      destruct Hr as [_ [_ [E _]]]. congruence.
    + intros day Hday. discriminate Hday.
  - rewrite count_table_latest in Eld.
    assert (Hrows : forall r, In r t ->
               recency_days r =
                 option_map (fun d => max_date e es - d)
                            (last_seen_at (e :: es) (num r))).
    { intros r Hr. rewrite Et in Hr. apply sorted_rows in Hr.
      apply count_table_rows in Hr.
      unfold feat_counts in Hr. cbn [fst snd] in Hr. apply Hr. }
    assert (Hzero : forall x, In x (e :: es) -> e_date x = max_date e es ->
               0 <= e_num x < 100 ->
               exists r, In r t /\ num r = e_num x /\ recency_days r = Some 0).
    { intros x Hx Hd Hn.
      destruct (sorted_rows_inv (snd (count_table e es))
                  (e_num x,
                   size_at (in_window (max_date e es - 29) (e :: es)) (e_num x),
                   Some 0)) as [r [Hr Hc]].
      - apply count_table_rows. cbn [fst snd]. split; [exact Hn|].
        split; [reflexivity|].
        rewrite (last_seen_latest e es x Hx Hd). cbn [option_map].
        f_equal. lia.
      - rewrite <- Et in Hr. exists r. split; [exact Hr|].
        unfold feat_counts in Hc.
        apply pair_equal_spec in Hc. destruct Hc as [Hc Hrec].
        apply pair_equal_spec in Hc. destruct Hc as [Hnum _].
        split; assumption. }
    clear Et. subst ld.
    split; [|split; [|intros day Hday; apply Some_inj in Hday; subst day;
                       split; [|split]]].
    + intros r Hr. rewrite (Hrows r Hr), <- last_seen_defined.
      destruct (last_seen_at (e :: es) (num r)); cbn [option_map];
        split; congruence.
    + intros r d Hr Hd. rewrite (Hrows r Hr) in Hd.
      destruct (last_seen_at (e :: es) (num r)) as [d'|] eqn:L;
        [|discriminate Hd].
      cbn [option_map] in Hd. apply Some_inj in Hd. subst d.
      pose proof (last_seen_le _ _ _ _ L). lia.
    + apply max_date_attained.
    + exact Hzero.
    + intros Hdig. destruct (max_date_attained e es) as [x [Hx Hd]].
      destruct (Hzero x Hx Hd) as [r [Hr [_ Hz]]].
      * eapply hist_rows_digits; eassumption.
      * exists r. split; assumption.
Qed.

End CountClaims.

(** ** The sample tables, evaluated *)

Lemma Ok_inj {A : Type} (a b : A) : Ok a = Ok b -> a = b.
Proof. intros H. inversion H. reflexivity. Qed.

Lemma build_features_nonempty_at (to_datetime : string -> option Z)
  (df : history) (e : entry) (es : list entry) (ld : Z) :
  hist_rows to_datetime df = Ok (e :: es) -> max_date e es = ld ->
  build_features to_datetime df =
    Ok (sort_values (with_score (snd (count_table e es))), Some ld).
Proof.
  intros E <-. rewrite (build_features_nonempty _ _ _ _ E), count_table_latest.
  reflexivity.
Qed.

(** A row of the count table is a row of the feature table. *)
Lemma build_features_row_at (to_datetime : string -> option Z) (df : history)
  (e : entry) (es : list entry) (n f : Z) (rc : option Z) :
  hist_rows to_datetime df = Ok (e :: es) ->
  In (n, f, rc) (snd (count_table e es)) ->
  exists t r,
    build_features to_datetime df = Ok (t, Some (max_date e es)) /\
    In r t /\ num r = n /\ freq_30d r = f /\ recency_days r = rc.
Proof.
  intros E Hin. destruct (sorted_rows_inv _ _ Hin) as [r [Hr Hc]].
  exists (sort_values (with_score (snd (count_table e es)))), r.
  split; [apply (build_features_nonempty_at _ _ _ _ _ E eq_refl)|].
  split; [exact Hr|]. unfold feat_counts in Hc.
  apply pair_equal_spec in Hc. destruct Hc as [Hc Hrec].
  apply pair_equal_spec in Hc. destruct Hc as [Hnum Hf].
  repeat split; assumption.
Qed.

Lemma one_day_hist :
  hist_rows Calendar.iso_day one_day = Ok [mkEntry 19723 45; mkEntry 19723 34].
Proof. vm_compute. reflexivity. Qed.

Lemma crowded_day_hist :
  hist_rows Calendar.iso_day crowded_day =
    Ok (mkEntry 19723 12 :: repeat (mkEntry 19723 12) 30).
Proof. vm_compute. reflexivity. Qed.

Lemma short_token_day_hist :
  hist_rows Calendar.iso_day short_token_day = Ok [].
Proof. vm_compute. reflexivity. Qed.

Lemma signed_day_hist :
  hist_rows Calendar.iso_day signed_day = Ok [mkEntry 19723 (-5)].
Proof. vm_compute. reflexivity. Qed.

(** The example of the specification: 45 and 34 were drawn once, on the
    latest day; every other value was never drawn. *)
Lemma one_day_rows :
  exists t,
    build_features Calendar.iso_day one_day = Ok (t, Some 19723) /\
    (exists r, In r t /\ num r = 45 /\ freq_30d r = 1
               /\ recency_days r = Some 0) /\
    (exists r, In r t /\ num r = 34 /\ freq_30d r = 1
               /\ recency_days r = Some 0) /\
    (forall r, In r t -> num r <> 45 -> num r <> 34 ->
               freq_30d r = 0 /\ recency_days r = None).
Proof.
  pose proof one_day_hist as E.
  exists (sort_values
            (with_score (snd (count_table (mkEntry 19723 45) [mkEntry 19723 34])))).
  split; [apply (build_features_nonempty_at _ _ _ _ _ E); vm_compute; reflexivity|].
  split; [|split].
  - destruct (sorted_rows_inv
                (snd (count_table (mkEntry 19723 45) [mkEntry 19723 34]))
                (45, 1, Some 0)) as [r [Hr Hc]].
    + apply count_table_rows. cbn [fst snd]. split; [lia|].
      split; vm_compute; reflexivity.
    + exists r. split; [exact Hr|]. unfold feat_counts in Hc.
      apply pair_equal_spec in Hc. destruct Hc as [Hc Hrec].
      apply pair_equal_spec in Hc. destruct Hc as [Hnum Hf].
      repeat split; assumption.
  - destruct (sorted_rows_inv
                (snd (count_table (mkEntry 19723 45) [mkEntry 19723 34]))
                (34, 1, Some 0)) as [r [Hr Hc]].
    + apply count_table_rows. cbn [fst snd]. split; [lia|].
      split; vm_compute; reflexivity.
    + exists r. split; [exact Hr|]. unfold feat_counts in Hc.
      apply pair_equal_spec in Hc. destruct Hc as [Hc Hrec].
      apply pair_equal_spec in Hc. destruct Hc as [Hnum Hf].
      repeat split; assumption.
  - intros r Hr N45 N34. apply sorted_rows in Hr.
    apply count_table_rows in Hr. unfold feat_counts in Hr.
    cbn [fst snd] in Hr. destruct Hr as [_ [Hf Hrec]].
    rewrite Hf, Hrec. clear Hf Hrec.
    unfold size_at, last_seen_at, group, in_window.
    replace (max_date (mkEntry 19723 45) [mkEntry 19723 34]) with 19723
      by (vm_compute; reflexivity).
    cbn [filter e_date e_num].
    replace (19723 - 29 <=? 19723) with true by reflexivity.
    cbn [filter e_date e_num].
    destruct (45 =? num r) eqn:E45; [apply Z.eqb_eq in E45; congruence|].
    destruct (34 =? num r) eqn:E34; [apply Z.eqb_eq in E34; congruence|].
    split; reflexivity.
Qed.

(** ** Standardisation *)

Section SeriesFacts.

Local Open Scope R_scope.

Lemma valid_map_Some (l : list R) : Series.valid (map Some l) = l.
Proof. induction l as [|x l IH]; simpl; [reflexivity|]. rewrite IH. reflexivity. Qed.

Lemma sum_shift_scale (m d : R) (l : list R) :
  d <> 0 ->
  Series.sum (map (fun x => (x - m) / d) l) =
    (Series.sum l - INR (List.length l) * m) / d.
Proof.
  intros Hd. induction l as [|x l IH].
  - simpl. field. exact Hd.
  - cbn [map Series.sum List.length]. rewrite IH, S_INR. field. exact Hd.
Qed.

Lemma sqdev_shift_scale (m d : R) (l : list R) :
  d <> 0 ->
  Series.sqdev 0 (map (fun x => (x - m) / d) l) = Series.sqdev m l / (d * d).
Proof.
  intros Hd. unfold Series.sqdev. induction l as [|x l IH].
  - simpl. field. exact Hd.
  - cbn [map Series.sum]. rewrite IH. field. exact Hd.
Qed.

Lemma sqdev_nonneg (m : R) (l : list R) : 0 <= Series.sqdev m l.
Proof.
  unfold Series.sqdev. induction l as [|x l IH]; simpl; [lra|].
  pose proof (Rle_0_sqr (x - m)) as H. unfold Rsqr in H. lra.
Qed.

Lemma mean_Some (l : list R) (k : nat) :
  List.length l = S k ->
  Series.mean (map Some l) = Some (Series.sum l / INR (S k)).
Proof.
  intros L. unfold Series.mean, Series.count.
  rewrite valid_map_Some, L. reflexivity.
Qed.

Lemma std_Some (l : list R) (k : nat) :
  List.length l = S (S k) ->
  Series.std (map Some l) =
    Some (sqrt (Series.sqdev (Series.sum l / INR (S (S k))) l / INR (S k))).
Proof.
  intros L. unfold Series.std, Series.count.
  rewrite valid_map_Some, L. reflexivity.
Qed.

(** Standardising a series without NaN that has two values or more, in
    exact arithmetic. *)
Lemma zscore_standardized (l : list R) (k : nat) :
  List.length l = S (S k) ->
  standardized (map Some l) (Series.zscore (map Some l)).
Proof.
  intros L.
  set (n := INR (S (S k))).
  set (m := Series.sum l / n).
  set (v := Series.sqdev m l / INR (S k)).
  assert (Hn : 0 < n) by (apply lt_0_INR; lia).
  assert (Hk : 0 < INR (S k)) by (apply lt_0_INR; lia).
  assert (Hv : 0 <= v).
  { unfold v. apply Rmult_le_pos; [apply sqdev_nonneg|].
    left. apply Rinv_0_lt_compat. exact Hk. }
  assert (Em : Series.mean (map Some l) = Some m) by (apply mean_Some, L).
  assert (Es : Series.std (map Some l) = Some (sqrt v)) by (apply std_Some, L).
  assert (Hd : exists d, Series.or_one (Some (sqrt v)) = Some d /\ 0 < d /\
                         (sqrt v <> 0 -> d = sqrt v) /\ (sqrt v = 0 -> d = 1)).
  { unfold Series.or_one. destruct (Req_dec_T (sqrt v) 0) as [E|E].
    - exists 1. repeat split; [lra|contradiction].
    - exists (sqrt v). repeat split; [|contradiction].
      pose proof (sqrt_pos v). lra. }
  destruct Hd as [d [Ed [Hdpos [Hd1 Hd2]]]].
  assert (Ez : Series.zscore (map Some l) =
               map Some (map (fun x => (x - m) / d) l)).
  { unfold Series.zscore. rewrite Em, Es, Ed, !map_map. reflexivity. }
  assert (Lz : List.length (map (fun x => (x - m) / d) l) = S (S k))
    by (rewrite length_map; exact L).
  assert (Sz : Series.sum (map (fun x => (x - m) / d) l) = 0).
  { rewrite sum_shift_scale by lra. rewrite L. fold n. unfold m. field. lra. }
  exists m, (sqrt v), d.
  split; [exact Em|]. split; [exact Es|]. split; [rewrite Es; exact Ed|].
  split; [rewrite Ez, !map_map; reflexivity|].
  split; [exact Hdpos|]. split; [exact Hd1|]. split; [exact Hd2|].
  rewrite Ez. split.
  - rewrite (mean_Some _ (S k) Lz), Sz. f_equal. fold n. field. lra.
  - intros Hne. rewrite (std_Some _ k Lz), Sz. f_equal.
    replace (0 / INR (S (S k))) with 0 by (fold n; field; lra).
    rewrite sqdev_shift_scale by lra.
    rewrite (Hd1 Hne), (sqrt_sqrt v Hv).
    assert (Hvpos : v <> 0).
    { intros E0. apply Hne. rewrite E0. apply sqrt_0. }
    replace (Series.sqdev m l / v / INR (S k)) with 1; [apply sqrt_1|].
    unfold v in *. field. split; [lra|].
    intros E0. apply Hvpos. rewrite E0. field. lra.
Qed.

End SeriesFacts.

(** ** The score column *)

Lemma count_table_length (e : entry) (es : list entry) :
  List.length (snd (count_table e es)) = 100%nat.
Proof.
  unfold count_table, range100. cbn [snd]. rewrite !length_map. apply length_seq.
Qed.

Lemma count_table_nth (e : entry) (es : list entry) (i : nat)
  (c : Z * Z * option Z) :
  nth_error (snd (count_table e es)) i = Some c -> fst (fst c) = Z.of_nat i.
Proof.
  intros H.
  assert (Hi : (i < 100)%nat).
  { rewrite <- (count_table_length e es). apply nth_error_Some. congruence. }
  pose proof (count_table_nums e es) as N.
  apply (f_equal (fun l => nth_error l i)) in N.
  rewrite nth_error_map, H in N. cbn [option_map] in N.
  unfold range100 in N. rewrite nth_error_map in N.
  rewrite nth_error_seq in N.
  destruct (i <? 100)%nat eqn:B; [|apply Nat.ltb_ge in B; lia].
  cbn in N. apply Some_inj in N. exact N.
Qed.

Lemma nth_error_combine {A B : Type} (l : list A) (l' : list B) (i : nat)
  (x : A) (y : B) :
  nth_error (combine l l') i = Some (x, y) ->
  nth_error l i = Some x /\ nth_error l' i = Some y.
Proof.
  revert l' i. induction l as [|a l IH]; intros [|b l'] [|i] H; simpl in *;
    try discriminate.
  - apply Some_inj in H. apply pair_equal_spec in H. destruct H as [-> ->].
    auto.
  - apply IH. exact H.
Qed.

Lemma nth_error_blend (a b : Series.t) (i : nat) (v : option R) :
  nth_error (Series.blend a b) i = Some v ->
  exists x y, nth_error a i = Some x /\ nth_error b i = Some y
              /\ v = Series.mix x y.
Proof.
  unfold Series.blend. rewrite nth_error_map.
  destruct (nth_error (combine a b) i) as [[x y]|] eqn:E; [|discriminate].
  cbn [option_map fst snd]. intros H. apply Some_inj in H.
  apply nth_error_combine in E. destruct E as [E1 E2].
  exists x, y. split; [exact E1|]. split; [exact E2|]. symmetry. exact H.
Qed.

(** Line 71 on one row: the score is the mix of the two standardised
    columns at the row's key. *)
Lemma with_score_row (e : entry) (es : list entry) (r : feat) :
  In r (with_score (snd (count_table e es))) ->
  exists a b,
    nth_error (z_hot (snd (count_table e es))) (Z.to_nat (num r)) = Some a /\
    nth_error (z_cold (snd (count_table e es))) (Z.to_nat (num r)) = Some b /\
    score r = Series.mix a b.
Proof.
  set (out := snd (count_table e es)).
  unfold with_score. rewrite in_map_iff.
  intros [[[[n f] rec] sc] [<- Hin]]. cbn [fst snd num score].
  apply In_nth_error in Hin. destruct Hin as [i Hi].
  apply nth_error_combine in Hi. destruct Hi as [Ho Hb].
  apply count_table_nth in Ho. cbn [fst] in Ho. subst n.
  rewrite Nat2Z.id. apply nth_error_blend in Hb.
  destruct Hb as [x [y [Hx [Hy ->]]]]. exists x, y. auto.
Qed.

Section RealSums.

Local Open Scope R_scope.



Lemma fillna_Some (s : Series.t) (M : R) :
  Series.fillna s (Some M) =
    map Some (map (fun x => match x with Some v => v | None => M end) s).
Proof.
  unfold Series.fillna. rewrite map_map. apply map_ext.
  intros [v|]; reflexivity.
Qed.

Lemma max_defined (s : Series.t) :
  (exists v, In (Some v) s) -> exists M, Series.max s = Some M.
Proof.
  intros [v Hv]. unfold Series.max.
  induction s as [|x s IH]; [contradiction|].
  destruct x as [x|]; cbn [Series.valid Series.maxl].
  - destruct (Series.maxl (Series.valid s)); eauto.
  - destruct Hv as [Hv|Hv]; [discriminate|]. apply IH. exact Hv.
Qed.

End RealSums.

Section ScoreClaims.

Variable to_datetime : string -> option Z.

Lemma freq_col_Some (out : list (Z * Z * option Z)) :
  freq_col out = map Some (map IZR (map (fun r => snd (fst r)) out)).
Proof. unfold freq_col. rewrite !map_map. reflexivity. Qed.

Lemma z_hot_standardized (e : entry) (es : list entry) :
  standardized (freq_col (snd (count_table e es)))
               (z_hot (snd (count_table e es))).
Proof.
  unfold z_hot. rewrite freq_col_Some.
  apply (zscore_standardized _ 98).
  rewrite !length_map. apply count_table_length.
Qed.

Lemma z_cold_standardized (e : entry) (es : list entry) :
  (exists c, In c (snd (count_table e es)) /\ snd c <> None) ->
  standardized (rc (snd (count_table e es)))
               (z_cold (snd (count_table e es))).
Proof.
  intros [c [Hc Hdef]].
  destruct (max_defined (recency_col (snd (count_table e es)))) as [M HM].
  { destruct (snd c) as [d|] eqn:Ed; [|congruence].
    exists (IZR d). unfold recency_col. apply in_map_iff.
    exists c. rewrite Ed. auto. }
  unfold z_cold, rc. rewrite HM, fillna_Some.
  apply (zscore_standardized _ 98).
  unfold recency_col. rewrite !length_map. apply count_table_length.
Qed.



End ScoreClaims.


(** ** One run of main *)

Section PipelineFacts.

Variable to_datetime : string -> option Z.
Variable strftime : Z -> result string.
Variable format_3f : option R -> string.
Variable html_parser : string -> result unit.
Variable findall : string -> list string.

Local Abbreviation fetch := (fetch_latest_from_ketqua html_parser findall).
Local Abbreviation render_from := (render to_datetime strftime format_3f).
Local Abbreviation main_run :=
  (main to_datetime strftime format_3f html_parser findall).
Local Abbreviation run_of :=
  (run to_datetime strftime format_3f html_parser findall).

(** Both pages format the same date: they are produced together. *)
Lemma html_texts (f : list feat) (ld : option Z) :
  match Report.data_as_of strftime ld with
  | Ok text =>
      Report.html_full strftime format_3f f ld 3 =
        Ok (Report.page "XSMB Top-3 dự đoán" "ul" text
              (Report.concat_all
                 (map (Report.item format_3f) (Report.head 3 f)))) /\
      Report.html_compact strftime format_3f f ld 3 =
        Ok (Report.page "XSMB Top-3 (Compact)" "ol" text
              (Report.concat_all
                 (map (Report.item_compact format_3f) (Report.head 3 f))))
  | Raise x =>
      Report.html_full strftime format_3f f ld 3 = Raise x /\
      Report.html_compact strftime format_3f f ld 3 = Raise x
  end.
Proof.
  unfold Report.html_full, Report.html_compact.
  destruct (Report.data_as_of strftime ld); split; reflexivity.
Qed.

Lemma render_eq (df : history) (w : world) :
  render_from df w =
    match build_features to_datetime df with
    | Ok (f, ld) =>
        match Report.data_as_of strftime ld with
        | Ok text =>
            (reported
               (Report.page "XSMB Top-3 dự đoán" "ul" text
                  (Report.concat_all
                     (map (Report.item format_3f) (Report.head 3 f))))
               (Report.page "XSMB Top-3 (Compact)" "ol" text
                  (Report.concat_all
                     (map (Report.item_compact format_3f) (Report.head 3 f))))
               w, Ok tt)
        | Raise x => (w, Raise x)
        end
    | Raise x => (w, Raise x)
    end.
Proof.
  unfold render, io_bind, lift, rebuild_html, rebuild_html_compact, reported.
  destruct (build_features to_datetime df) as [[f ld]|x]; [|reflexivity].
  cbn [fst snd]. pose proof (html_texts f ld) as T.
  destruct (Report.data_as_of strftime ld); destruct T as [-> ->];
    reflexivity.
Qed.

(** A rendering either writes both pages and ends well, or raises and
    writes nothing. *)
Lemma render_cases (df : history) (w : world) :
  (exists f ld full compact,
     build_features to_datetime df = Ok (f, ld) /\
     Report.html_full strftime format_3f f ld 3 = Ok full /\
     Report.html_compact strftime format_3f f ld 3 = Ok compact /\
     render_from df w = (reported full compact w, Ok tt)) \/
  (exists x, render_from df w = (w, Raise x)).
Proof.
  rewrite render_eq.
  destruct (build_features to_datetime df) as [[f ld]|x];
    [|right; exists x; reflexivity].
  pose proof (html_texts f ld) as T.
  destruct (Report.data_as_of strftime ld) as [text|x]; destruct T as [T1 T2].
  - left. exists f, ld. eexists. eexists.
    split; [reflexivity|]. split; [exact T1|]. split; [exact T2|].
    reflexivity.
  - right. exists x. reflexivity.
Qed.

Lemma main_eq (force : bool) (e : env) (w : world) :
  main_run force e w =
    match fetch e with
    | Raise ex => render_from (stored w) (printed (MsgFailed ex) (loaded w))
    | Ok (today, prizes, _) =>
        if force || today_absent today (stored w) then
          render_from (stored w ++ [mkRow today prizes])
            (printed (MsgAdded today)
               (saved (stored w ++ [mkRow today prizes]) (loaded w)))
        else render_from (stored w) (loaded w)
    end.
Proof.
  unfold main, fetch_and_append, io_bind, try_except, load_history, lift, ret,
    stored, loaded, printed, saved.
  destruct (csv_file w) as [df|];
    (destruct (fetch e) as [[[today prizes] l2]|ex]; [|reflexivity];
     destruct (force || today_absent today _); reflexivity).
Qed.

Lemma fetch_today (e : env) (today prizes : string) (l2 : list string) :
  fetch e = Ok (today, prizes, l2) -> today = now e.
Proof.
  unfold fetch_latest_from_ketqua.
  destruct (answer e) as [|st html]; [discriminate|].
  destruct (raise_for_status st); [|discriminate]. cbn [bind].
  destruct (html_parser html); [|discriminate]. cbn [bind].
  destruct (findall html) as [|x nums]; [discriminate|].
  destruct (last2_all (x :: nums)); [|discriminate]. cbn [bind].
  intros H. apply Ok_inj in H.
  apply pair_equal_spec in H. destruct H as [H _].
  apply pair_equal_spec in H. destruct H as [H _]. symmetry. exact H.
Qed.

(** What [render] leaves alone. *)
Lemma render_csv (df : history) (w : world) :
  csv_file (fst (render_from df w)) = csv_file w.
Proof.
  destruct (render_cases df w) as [[f [ld [full [compact [_ [_ [_ E]]]]]]]|[x E]];
    rewrite E; reflexivity.
Qed.

Lemma render_stdout (df : history) (w : world) :
  stdout (fst (render_from df w)) = stdout w.
Proof.
  destruct (render_cases df w) as [[f [ld [full [compact [_ [_ [_ E]]]]]]]|[x E]];
    rewrite E; reflexivity.
Qed.

Lemma render_trace (df : history) (w : world) :
  trace (fst (render_from df w)) =
    trace w ++
    match snd (render_from df w) with
    | Ok _ => [WriteIndex; WriteCompact]
    | Raise _ => []
    end.
Proof.
  destruct (render_cases df w) as [[f [ld [full [compact [_ [_ [_ E]]]]]]]|[x E]];
    rewrite E.
  - cbn. rewrite <- app_assoc. reflexivity.
  - cbn. rewrite app_nil_r. reflexivity.
Qed.

Lemma count_op_app (op : file_op) (a b : list file_op) :
  count_op op (a ++ b) = (count_op op a + count_op op b)%nat.
Proof. unfold count_op. rewrite filter_app, length_app. reflexivity. Qed.

Lemma render_csv_ops (op : file_op) (df : history) (w : world) :
  op = ReadCsv \/ op = WriteCsv ->
  count_op op (trace (fst (render_from df w))) = count_op op (trace w).
Proof.
  intros Hop. rewrite render_trace, count_op_app.
  destruct (snd (render_from df w)); destruct Hop as [-> | ->];
    cbn; lia.
Qed.

Lemma loaded_csv (w : world) : csv_file (loaded w) = csv_file w.
Proof. unfold loaded. destruct (csv_file w) eqn:E; [exact E|exact E]. Qed.

Lemma loaded_trace (w : world) :
  trace (loaded w) =
    trace w ++ match csv_file w with Some _ => [ReadCsv] | None => [] end.
Proof.
  unfold loaded. destruct (csv_file w); cbn; [reflexivity|].
  rewrite app_nil_r. reflexivity.
Qed.

(** The history file after one run. *)
Lemma run_csv (force : bool) (e : env) (w : world) :
  csv_file (run_of force e w) =
    match fetch e with
    | Raise _ => csv_file w
    | Ok (today, prizes, _) =>
        if force || today_absent today (stored w)
        then Some (stored w ++ [mkRow today prizes])
        else csv_file w
    end.
Proof.
  unfold run. rewrite main_eq.
  destruct (fetch e) as [[[today prizes] l2]|ex].
  - destruct (force || today_absent today (stored w));
      rewrite render_csv; [reflexivity|apply loaded_csv].
  - rewrite render_csv. cbn. apply loaded_csv.
Qed.

Lemma printed_trace (m : message) (w : world) : trace (printed m w) = trace w.
Proof. reflexivity. Qed.

Lemma saved_trace (df : history) (w : world) :
  trace (saved df w) = trace w ++ [WriteCsv].
Proof. reflexivity. Qed.

(** The file operations of one run on the history file. *)
Lemma run_csv_ops (force : bool) (e : env) (w : world) :
  count_op ReadCsv (trace (run_of force e w)) =
    (count_op ReadCsv (trace w)
     + match csv_file w with Some _ => 1 | None => 0 end)%nat /\
  count_op WriteCsv (trace (run_of force e w)) =
    (count_op WriteCsv (trace w)
     + match fetch e with
       | Raise _ => 0
       | Ok (today, _, _) =>
           if force || today_absent today (stored w) then 1 else 0
       end)%nat.
Proof.
  assert (HR : count_op ReadCsv (trace (loaded w)) =
               (count_op ReadCsv (trace w)
                + match csv_file w with Some _ => 1 | None => 0 end)%nat).
  { rewrite loaded_trace, count_op_app. destruct (csv_file w); reflexivity. }
  assert (HW : count_op WriteCsv (trace (loaded w)) = count_op WriteCsv (trace w)).
  { rewrite loaded_trace, count_op_app. destruct (csv_file w); cbn; lia. }
  unfold run. rewrite main_eq.
  destruct (fetch e) as [[[today prizes] l2]|ex];
    [destruct (force || today_absent today (stored w))|].
  - rewrite !render_csv_ops by auto.
    rewrite printed_trace, saved_trace, !count_op_app, HR, HW. cbn. lia.
  - rewrite !render_csv_ops by auto. rewrite HR, HW. lia.
  - rewrite !render_csv_ops by auto. rewrite printed_trace, HR, HW. lia.
Qed.

End PipelineFacts.

(** ** The empty history *)

Lemma format_3f_zero : Report.format_3f (Some 0%R) = "0.000"%string.
Proof.
  assert (I0 : Int_part 0 = 0).
  { symmetry. apply Int_part_spec. simpl. lra. }
  unfold Report.format_3f, Report.round_half_even.
  replace (Rabs 0 * 1000)%R with 0%R by (rewrite Rabs_R0; ring).
  rewrite fp_R0, I0.
  destruct (Rlt_dec 0 (1 / 2)) as [_|H]; [|exfalso; apply H; lra].
  destruct (Rlt_dec 0 0) as [H|_]; [exfalso; lra|].
  reflexivity.
Qed.

Lemma append_assoc (a b c : string) :
  ((a ++ b) ++ c)%string = (a ++ (b ++ c))%string.
Proof.
  induction a as [|x a IH]; [reflexivity|]. cbn [append]. rewrite IH.
  reflexivity.
Qed.

Ltac same_text :=
  unfold Report.page, Report.unlines, Report.nl, Report.dq, Report.disclaimer;
  repeat rewrite append_assoc; reflexivity.

Section EmptyHistory.

Variable to_datetime : string -> option Z.
Variable strftime : Z -> result string.
Variable format_3f : option R -> string.

(** C8. On the empty history [build_features] returns the neutral table:
    the values 0..99 in order, every score and every [freq_30d] zero, no
    recency, and no latest day.  Both reports are then produced without a
    call of [strftime]; they show nothing after the label of the date, and
    their lists hold 00, 01, 02 in that order, each with the score zero as
    [.3f] prints it. *)
Theorem empty_history_report :
  let q := String (ascii_of_nat 34) EmptyString in
  let zero := format_3f (Some 0%R) in
  build_features to_datetime [] = Ok (empty_table, None) /\
  map num empty_table = range100 /\
  (forall r, In r empty_table ->
     score r = Some 0%R /\ freq_30d r = 0 /\ recency_days r = None) /\
  Report.data_as_of strftime None = Ok EmptyString /\
  map (fun r => Report.pad2 (num r)) (Report.head 3 empty_table)
    = ["00"; "01"; "02"]%string /\
  Report.html_full strftime format_3f empty_table None 3 =
    Ok ("<!doctype html>
<html lang=" ++ q ++ "vi" ++ q ++ "><head>
<meta charset=" ++ q ++ "utf-8" ++ q ++ "/><meta name=" ++ q ++ "viewport"
     ++ q ++ " content=" ++ q ++ "width=device-width, initial-scale=1" ++ q ++ "/>
<title>XSMB Top-3 dự đoán</title>
</head><body>
<h1>Top-3 gợi ý</h1>
<p>Dữ liệu đến: </p>
<ul>
<li>00 – score " ++ zero ++ ", 30d: 0, recency:  ngày</li><li>01 – score "
     ++ zero ++ ", 30d: 0, recency:  ngày</li><li>02 – score " ++ zero ++ ", 30d: 0, recency:  ngày</li>
</ul>
<p style=" ++ q ++ "color:red" ++ q ++ ">⚠️ Miễn trừ trách nhiệm: Đây chỉ là công cụ thống kê mô tả dựa trên dữ liệu quá khứ. Không đảm bảo kết quả, nội dung chỉ mang tính chất tham khảo. Vui lòng chơi có trách nhiệm.</p>
</body></html>")%string /\
  Report.html_compact strftime format_3f empty_table None 3 =
    Ok ("<!doctype html>
<html lang=" ++ q ++ "vi" ++ q ++ "><head>
<meta charset=" ++ q ++ "utf-8" ++ q ++ "/><meta name=" ++ q ++ "viewport"
     ++ q ++ " content=" ++ q ++ "width=device-width, initial-scale=1" ++ q ++ "/>
<title>XSMB Top-3 (Compact)</title>
</head><body>
<h1>Top-3 gợi ý</h1>
<p>Dữ liệu đến: </p>
<ol>
<li>00 – score " ++ zero ++ "</li><li>01 – score " ++ zero
     ++ "</li><li>02 – score " ++ zero ++ "</li>
</ol>
<p style=" ++ q ++ "color:red" ++ q ++ ">⚠️ Miễn trừ trách nhiệm: Đây chỉ là công cụ thống kê mô tả dựa trên dữ liệu quá khứ. Không đảm bảo kết quả, nội dung chỉ mang tính chất tham khảo. Vui lòng chơi có trách nhiệm.</p>
</body></html>")%string.
Proof.
  cbv zeta.
  split; [reflexivity|].
  split; [unfold empty_table; rewrite map_map; apply map_id|].
  split; [intros r Hr; apply empty_table_rows in Hr; tauto|].
  split; [reflexivity|].
  split; [reflexivity|].
  split.
  - change (Report.html_full strftime format_3f empty_table None 3) with
      (Ok (Report.page "XSMB Top-3 dự đoán" "ul" ""
             (Report.concat_all
                [neutral_item format_3f "00"; neutral_item format_3f "01";
                 neutral_item format_3f "02"]))).
    f_equal. unfold neutral_item, Report.concat_all.
    generalize (format_3f (Some 0%R)). intros zero. same_text.
  - change (Report.html_compact strftime format_3f empty_table None 3) with
      (Ok (Report.page "XSMB Top-3 (Compact)" "ol" ""
             (Report.concat_all
                [neutral_item_compact format_3f "00";
                 neutral_item_compact format_3f "01";
                 neutral_item_compact format_3f "02"]))).
    f_equal. unfold neutral_item_compact, Report.concat_all.
    generalize (format_3f (Some 0%R)). intros zero. same_text.
Qed.

End EmptyHistory.

(** ** The claims on main *)

Section PipelineClaims.

Variable to_datetime : string -> option Z.
Variable strftime : Z -> result string.
Variable format_3f : option R -> string.
Variable html_parser : string -> result unit.
Variable findall : string -> list string.

Local Abbreviation fetch := (fetch_latest_from_ketqua html_parser findall).
Local Abbreviation render_from := (render to_datetime strftime format_3f).
Local Abbreviation main_run :=
  (main to_datetime strftime format_3f html_parser findall).
Local Abbreviation run_of :=
  (run to_datetime strftime format_3f html_parser findall).
Local Abbreviation run_csv :=
  (run_csv to_datetime strftime format_3f html_parser findall).

Lemma today_absent_false (today : string) (df : history) :
  today_absent today df = false <-> In today (map date df).
Proof.
  unfold today_absent. rewrite negb_false_iff, existsb_exists. split.
  - intros [x [Hx E]]. apply String.eqb_eq in E. subst x. exact Hx.
  - intros H. exists today. split; [exact H|apply String.eqb_refl].
Qed.

Lemma dated_app (today : string) (a b : history) :
  dated today (a ++ b) = dated today a ++ dated today b.
Proof. apply filter_app. Qed.

Lemma dated_absent (today : string) (df : history) :
  today_absent today df = true -> dated today df = [].
Proof.
  unfold today_absent. rewrite negb_true_iff. intros H.
  unfold dated. induction df as [|r df IH]; [reflexivity|].
  cbn [map existsb] in H. apply orb_false_elim in H. destruct H as [Hr Hdf].
  cbn [filter]. rewrite Hr. apply IH. exact Hdf.
Qed.

Lemma run_stored (force : bool) (e : env) (w : world) :
  stored (run_of force e w) =
    match fetch e with
    | Raise _ => stored w
    | Ok (today, prizes, _) =>
        if force || today_absent today (stored w)
        then stored w ++ [mkRow today prizes]
        else stored w
    end.
Proof.
  unfold stored at 1. rewrite run_csv.
  destruct (fetch e) as [[[today prizes] l2]|ex]; [|reflexivity].
  destruct (force || today_absent today (stored w)); reflexivity.
Qed.

(** A run that finds its day in the history leaves the file alone. *)
Lemma run_present (e : env) (w : world) :
  In (now e) (map date (stored w)) -> csv_file (run_of false e w) = csv_file w.
Proof.
  intros Hin. rewrite run_csv.
  destruct (fetch e) as [[[today prizes] l2]|ex] eqn:F; [|reflexivity].
  apply fetch_today in F. subst today.
  apply today_absent_false in Hin. rewrite Hin. reflexivity.
Qed.

(** A run whose fetch succeeds leaves its day in the history. *)
Lemma run_records_today (force : bool) (e : env) (w : world)
  (x : string * string * list string) :
  fetch e = Ok x -> In (now e) (map date (stored (run_of force e w))).
Proof.
  intros F. rewrite run_stored, F. destruct x as [[today prizes] l2].
  apply fetch_today in F. subst today.
  destruct (force || today_absent (now e) (stored w)) eqn:B.
  - rewrite map_app. apply in_or_app. right. left. reflexivity.
  - apply orb_false_elim in B. destruct B as [_ B].
    apply today_absent_false. exact B.
Qed.

Lemma run_dated_bound (e : env) (w : world) :
  (List.length (dated (now e) (stored (run_of false e w)))
   <= Nat.max 1 (List.length (dated (now e) (stored w))))%nat.
Proof.
  rewrite run_stored.
  destruct (fetch e) as [[[today prizes] l2]|ex] eqn:F; [|lia].
  apply fetch_today in F. subst today. cbn [orb].
  destruct (today_absent (now e) (stored w)) eqn:B; [|lia].
  rewrite dated_app, (dated_absent _ _ B), length_app.
  cbn [dated filter date]. rewrite String.eqb_refl. cbn. lia.
Qed.

(** C4 (amended). One run reads the history file once when it exists and not
    at all otherwise; it rewrites the file once when the fetch succeeds and
    the force flag is set or the day is not in the history, and not at all
    otherwise. *)
Theorem main_csv_operations (force : bool) (e : env) (w : world) :
  count_op ReadCsv (trace (run_of force e w)) =
    (count_op ReadCsv (trace w)
     + match csv_file w with Some _ => 1 | None => 0 end)%nat /\
  count_op WriteCsv (trace (run_of force e w)) =
    (count_op WriteCsv (trace w)
     + match fetch e with
       | Raise _ => 0
       | Ok (today, _, _) =>
           if force || today_absent today (stored w) then 1 else 0
       end)%nat.
Proof. apply run_csv_ops. Qed.

(** C6 (amended). Two runs on the same day without the force flag: when the
    first fetch succeeded, or the second failed, or the day was already in
    the history, the second run leaves the history file as the first run
    left it; so does a second run in the same environment.  In every case
    the day has at most one row after the two runs, unless it had more
    before. *)
Theorem main_twice_same_day (e1 e2 : env) (w : world) :
  now e1 = now e2 ->
  let w1 := run_of false e1 w in
  let w2 := run_of false e2 w1 in
  ((exists x, fetch e1 = Ok x) \/ (exists ex, fetch e2 = Raise ex)
   \/ In (now e1) (map date (stored w)) ->
   csv_file w2 = csv_file w1) /\
  (e1 = e2 -> csv_file w2 = csv_file w1) /\
  (List.length (dated (now e1) (stored w2))
   <= Nat.max 1 (List.length (dated (now e1) (stored w))))%nat.
Proof.
  intros Hday w1 w2.
  assert (Hpres : In (now e1) (map date (stored w1)) ->
                  csv_file w2 = csv_file w1).
  { intros Hin. unfold w2. apply run_present. rewrite <- Hday. exact Hin. }
  assert (Hfail : forall ex, fetch e2 = Raise ex -> csv_file w2 = csv_file w1).
  { intros ex F. unfold w2. rewrite run_csv, F. reflexivity. }
  assert (Hkeep : In (now e1) (map date (stored w)) ->
                  In (now e1) (map date (stored w1))).
  { intros Hin. unfold w1. unfold stored at 1. rewrite (run_present e1 w Hin).
    exact Hin. }
  split; [|split].
  - intros [[x F]|[[ex F]|Hin]].
    + apply Hpres. unfold w1. eapply run_records_today. exact F.
    + eapply Hfail. exact F.
    + apply Hpres, Hkeep, Hin.
  - intros <-. destruct (fetch e1) as [x|ex] eqn:F.
    + apply Hpres. unfold w1. eapply run_records_today. exact F.
    + apply (Hfail ex). reflexivity.
  - unfold w2. rewrite Hday.
    eapply Nat.le_trans; [apply run_dated_bound|].
    rewrite <- Hday. pose proof (run_dated_bound e1 w) as B. fold w1 in B. lia.
Qed.

(** C7. With the force flag and a successful fetch, the run appends a row
    for the day to the history, whether or not the day is there already:
    the day has one row more than before, so two at least when it had one. *)
Theorem forced_run_appends (e : env) (w : world) (today prizes : string)
  (l2 : list string) :
  fetch e = Ok (today, prizes, l2) ->
  today = now e /\
  csv_file (run_of true e w) = Some (stored w ++ [mkRow today prizes]) /\
  List.length (dated today (stored (run_of true e w)))
    = S (List.length (dated today (stored w))) /\
  (In today (map date (stored w)) ->
   (2 <= List.length (dated today (stored (run_of true e w))))%nat).
Proof.
  intros F. split; [eapply fetch_today; exact F|].
  assert (C : csv_file (run_of true e w) = Some (stored w ++ [mkRow today prizes])).
  { rewrite run_csv, F. reflexivity. }
  assert (L : List.length (dated today (stored (run_of true e w)))
              = S (List.length (dated today (stored w)))).
  { unfold stored at 1. rewrite C, dated_app, length_app.
    cbn [dated filter date]. rewrite String.eqb_refl. cbn. lia. }
  split; [exact C|]. split; [exact L|].
  intros Hin. rewrite L.
  assert (1 <= List.length (dated today (stored w)))%nat; [|lia].
  apply in_map_iff in Hin. destruct Hin as [r [Hr Hin]].
  assert (Hd : In r (dated today (stored w))).
  { unfold dated. apply filter_In. split; [exact Hin|].
    rewrite Hr. apply String.eqb_refl. }
  destruct (dated today (stored w)); [contradiction|cbn; lia].
Qed.

(** C9 (amended). When the fetch raises, whatever the error, the run prints
    the failure, leaves the history file as it was, and goes on to compute
    the features of the stored history and to render the two reports from
    them.  When [build_features] returns on the stored history and the
    latest day can be formatted, the run ends well and both pages are
    written, with that day after the label and the first three rows of the
    table in the list; when either step raises, the run ends with that
    exception and leaves both pages as they were.  A failed GET, a 4xx or
    5xx status, a page the HTML parser rejects and a page without numbers
    each raise in the fetch. *)
Theorem failed_fetch_still_renders (force : bool) (e : env) (w : world)
  (ex : exn) :
  fetch e = Raise ex ->
  let q := String (ascii_of_nat 34) EmptyString in
  let w' := run_of force e w in
  let untouched (x : exn) :=
    snd (main_run force e w) = Raise x /\
    index_html w' = index_html w /\
    index_top3_only_html w' = index_top3_only_html w in
  csv_file w' = csv_file w /\
  stdout w' = stdout w ++ [MsgFailed ex] /\
  match build_features to_datetime (stored w) with
  | Raise x => untouched x
  | Ok (f, ld) =>
      match match ld with
            | Some d => strftime d
            | None => Ok EmptyString
            end with
      | Raise x => untouched x
      | Ok text =>
          snd (main_run force e w) = Ok tt /\
          index_html w' = Some
            ("<!doctype html>
<html lang=" ++ q ++ "vi" ++ q ++ "><head>
<meta charset=" ++ q ++ "utf-8" ++ q ++ "/><meta name=" ++ q ++ "viewport"
             ++ q ++ " content=" ++ q ++ "width=device-width, initial-scale=1"
             ++ q ++ "/>
<title>XSMB Top-3 dự đoán</title>
</head><body>
<h1>Top-3 gợi ý</h1>
<p>Dữ liệu đến: " ++ text ++ "</p>
<ul>
" ++ (Report.concat_all
                   (map (fun r =>
                           "<li>" ++ Report.pad2 (num r) ++ " – score "
                           ++ format_3f (score r) ++ ", 30d: "
                           ++ Text.str_int (freq_30d r) ++ ", recency: "
                           ++ match recency_days r with
                              | Some d => Text.str_int d
                              | None => ""
                              end
                           ++ " ngày</li>")
                        (firstn 3 f))) ++ "
</ul>
<p style=" ++ q ++ "color:red" ++ q ++ ">⚠️ Miễn trừ trách nhiệm: Đây chỉ là công cụ thống kê mô tả dựa trên dữ liệu quá khứ. Không đảm bảo kết quả, nội dung chỉ mang tính chất tham khảo. Vui lòng chơi có trách nhiệm.</p>
</body></html>")%string /\
          index_top3_only_html w' = Some
            ("<!doctype html>
<html lang=" ++ q ++ "vi" ++ q ++ "><head>
<meta charset=" ++ q ++ "utf-8" ++ q ++ "/><meta name=" ++ q ++ "viewport"
             ++ q ++ " content=" ++ q ++ "width=device-width, initial-scale=1"
             ++ q ++ "/>
<title>XSMB Top-3 (Compact)</title>
</head><body>
<h1>Top-3 gợi ý</h1>
<p>Dữ liệu đến: " ++ text ++ "</p>
<ol>
" ++ (Report.concat_all
                   (map (fun r =>
                           "<li>" ++ Report.pad2 (num r) ++ " – score "
                           ++ format_3f (score r) ++ "</li>")
                        (firstn 3 f))) ++ "
</ol>
<p style=" ++ q ++ "color:red" ++ q ++ ">⚠️ Miễn trừ trách nhiệm: Đây chỉ là công cụ thống kê mô tả dựa trên dữ liệu quá khứ. Không đảm bảo kết quả, nội dung chỉ mang tính chất tham khảo. Vui lòng chơi có trách nhiệm.</p>
</body></html>")%string
      end
  end /\
  (forall e', answer e' = NoAnswer -> fetch e' = Raise ConnectionError) /\
  (forall e' st html,
     answer e' = Response st html -> 400 <= st < 600 ->
     fetch e' = Raise (HTTPError st)) /\
  (forall e' st html x,
     answer e' = Response st html -> ~ 400 <= st < 600 ->
     html_parser html = Raise x -> fetch e' = Raise x) /\
  (forall e' st html,
     answer e' = Response st html -> ~ 400 <= st < 600 ->
     html_parser html = Ok tt ->
     findall html = [] -> fetch e' = Raise RuntimeError).
Proof.
  intros F. cbv zeta.
  assert (M : main_run force e w =
              render_from (stored w) (printed (MsgFailed ex) (loaded w))).
  { rewrite main_eq, F. reflexivity. }
  assert (I1 : index_html (printed (MsgFailed ex) (loaded w)) = index_html w).
  { unfold loaded. destruct (csv_file w); reflexivity. }
  assert (I2 : index_top3_only_html (printed (MsgFailed ex) (loaded w))
               = index_top3_only_html w).
  { unfold loaded. destruct (csv_file w); reflexivity. }
  assert (Hst : forall st, ~ 400 <= st < 600 ->
                  (400 <=? st) && (st <? 600) = false).
  { intros st Hst. apply andb_false_iff.
    destruct (Z.leb_spec 400 st); [|auto].
    destruct (Z.ltb_spec st 600); [exfalso; apply Hst; lia|auto]. }
  split; [rewrite run_csv, F; reflexivity|].
  split; [unfold run; rewrite M, render_stdout; unfold loaded;
          destruct (csv_file w); reflexivity|].
  split; [|split; [|split; [|split]]].
  - unfold run. rewrite M, render_eq.
    destruct (build_features to_datetime (stored w)) as [[f ld]|x];
      [|cbn [fst snd]; auto].
    unfold Report.data_as_of.
    destruct (match ld with Some d => strftime d | None => Ok EmptyString end)
      as [text|x]; [|cbn [fst snd]; auto].
    cbn [fst snd]. split; [reflexivity|].
    unfold reported, write_index, write_compact, log.
    cbn [fst index_html index_top3_only_html]. split; f_equal.
    + unfold Report.head, Report.item. same_text.
    + unfold Report.head, Report.item_compact. same_text.
  - intros e' A. unfold fetch_latest_from_ketqua. rewrite A. reflexivity.
  - intros e' st html A Hr. unfold fetch_latest_from_ketqua, raise_for_status.
    rewrite A.
    replace ((400 <=? st) && (st <? 600)) with true; [reflexivity|].
    symmetry. apply andb_true_intro. split; [apply Z.leb_le|apply Z.ltb_lt]; lia.
  - intros e' st html x A Hr P.
    unfold fetch_latest_from_ketqua, raise_for_status. rewrite A, (Hst st Hr).
    cbn [bind]. rewrite P. reflexivity.
  - intros e' st html A Hr P Hnone.
    unfold fetch_latest_from_ketqua, raise_for_status. rewrite A, (Hst st Hr).
    cbn [bind]. rewrite P. cbn [bind]. rewrite Hnone. reflexivity.
Qed.

End PipelineClaims.

(** * The claims on concrete inputs *)

Lemma build_features_length (to_datetime : string -> option Z) (df : history)
  (t : list feat) (ld : option Z) :
  build_features to_datetime df = Ok (t, ld) -> List.length t = 100%nat.
Proof.
  intros H. apply build_features_nums in H.
  rewrite <- (length_map num), (Permutation_length H). reflexivity.
Qed.

Lemma one_day_table :
  exists t, build_features Calendar.iso_day one_day = Ok (t, Some 19723).
Proof.
  eexists. apply (build_features_nonempty_at _ _ _ _ _ one_day_hist).
  vm_compute. reflexivity.
Qed.

Lemma page_env_fetch (today : string) :
  fetch_latest_from_ketqua Soup.html_parser Regex.findall (page_env today) =
    Ok (today, "12345 234", ["45"; "34"])%string.
Proof. reflexivity. Qed.

(** A page with a marked section of an unknown keyword: the fetch raises on
    line 29, before the numbers are looked for. *)
Lemma rejected_page_fetch (today : string) :
  fetch_latest_from_ketqua Soup.html_parser Regex.findall
    (mkEnv (Response 200 "<![x <td>12345</td>") today)
    = Raise ParserRejectedMarkup.
Proof. reflexivity. Qed.

(** C1 on the example of the specification. *)
Lemma build_features_covers_0_99_witness :
  exists t ld,
    build_features Calendar.iso_day one_day = Ok (t, ld) /\
    List.length t = 100%nat /\ Permutation (map num t) range100.
Proof.
  destruct (proj2 (build_features_covers_0_99 Calendar.iso_day) one_day)
    as [t [ld H]]; [vm_compute; reflexivity|].
  exists t, ld. split; [exact H|].
  destruct (proj1 (build_features_covers_0_99 Calendar.iso_day) one_day t ld H)
    as [L [P _]].
  split; [exact L|exact P].
Defined.

(** C2 as stated fails: on a day with 31 prizes ending in 12 the count of 12
    is 31, above the 30 days of the window. *)
Lemma freq_30d_exceeds_30 :
  exists t ld r,
    build_features Calendar.iso_day crowded_day = Ok (t, ld) /\
    In r t /\ num r = 12 /\ freq_30d r = 31 /\ ~ freq_30d r <= 30.
Proof.
  destruct (build_features_row_at Calendar.iso_day crowded_day _ _ 12 31 (Some 0)
              crowded_day_hist) as [t [r [B [Hr [Hn [Hf _]]]]]].
  { apply count_table_rows. cbn [fst snd]. split; [lia|].
    split; vm_compute; reflexivity. }
  exists t, (Some (max_date (mkEntry 19723 12) (repeat (mkEntry 19723 12) 30))), r.
  split; [exact B|]. split; [exact Hr|]. split; [exact Hn|].
  split; [exact Hf|]. rewrite Hf. lia.
Qed.

(** C2 (amended) on the example of the specification. *)
Lemma freq_30d_counts_window_entries_witness :
  exists t ld r,
    build_features Calendar.iso_day one_day = Ok (t, ld) /\ In r t /\
    num r = 45 /\ 0 <= freq_30d r <= 2.
Proof.
  destruct (build_features_row_at Calendar.iso_day one_day _ _ 45 1 (Some 0)
              one_day_hist) as [t [r [B [Hr [Hn _]]]]].
  { apply count_table_rows. cbn [fst snd]. split; [lia|].
    split; vm_compute; reflexivity. }
  exists t, (Some (max_date (mkEntry 19723 45) [mkEntry 19723 34])), r.
  split; [exact B|]. split; [exact Hr|]. split; [exact Hn|].
  destruct (freq_30d_counts_window_entries Calendar.iso_day one_day t _ r B Hr)
    as [hist [Hh [_ Hb]]].
  rewrite one_day_hist in Hh. apply Ok_inj in Hh. subst hist.
  replace (Z.of_nat
             (List.length
                (window_entries [mkEntry 19723 45; mkEntry 19723 34]
                   (Some (max_date (mkEntry 19723 45) [mkEntry 19723 34])))))
    with 2 in Hb by (vm_compute; reflexivity).
  exact Hb.
Defined.



(** C4 as stated fails: a run whose GET fails does not rewrite the history
    file, and a run that finds no history file does not read it. *)
Lemma failed_fetch_writes_nothing :
  count_op WriteCsv
    (trace (run Calendar.iso_day Calendar.strftime Report.format_3f
              Soup.html_parser Regex.findall false (offline_env "2024-01-02")
              (world_of (Some one_day)))) = 0%nat /\
  count_op ReadCsv
    (trace (run Calendar.iso_day Calendar.strftime Report.format_3f
              Soup.html_parser Regex.findall false (offline_env "2024-01-02")
              (world_of None))) = 0%nat.
Proof.
  split.
  - destruct (run_csv_ops Calendar.iso_day Calendar.strftime Report.format_3f
                Soup.html_parser Regex.findall false (offline_env "2024-01-02")
                (world_of (Some one_day))) as [_ H].
    rewrite H. reflexivity.
  - destruct (run_csv_ops Calendar.iso_day Calendar.strftime Report.format_3f
                Soup.html_parser Regex.findall false (offline_env "2024-01-02")
                (world_of None)) as [H _].
    rewrite H. reflexivity.
Qed.

(** C5 on the example of the specification: the first two rows. *)
Lemma build_features_sorted_witness :
  exists t a b,
    build_features Calendar.iso_day one_day = Ok (t, Some 19723) /\
    nth_error t 0 = Some a /\ nth_error t 1 = Some b /\
    score_ge (score a) (score b) /\ (score a = score b -> num a < num b).
Proof.
  destruct one_day_table as [t B].
  pose proof (build_features_length _ _ _ _ B) as L.
  destruct t as [|a [|b t']]; [discriminate L|discriminate L|].
  exists (a :: b :: t'), a, b. split; [exact B|].
  split; [reflexivity|]. split; [reflexivity|].
  apply (build_features_sorted Calendar.iso_day one_day (a :: b :: t')
           (Some 19723) 0 1 a b B); [lia|reflexivity|reflexivity].
Defined.

(** C6 as stated fails: when the GET of the first run fails and that of the
    second run succeeds, the second run appends the row of the day, and the
    history after two runs is not the history after one. *)
Lemma second_run_appends_after_failed_first :
  let w1 := run Calendar.iso_day Calendar.strftime Report.format_3f
              Soup.html_parser Regex.findall false (offline_env "2024-01-02")
              (world_of (Some one_day)) in
  let w2 := run Calendar.iso_day Calendar.strftime Report.format_3f
              Soup.html_parser Regex.findall false (page_env "2024-01-02")
              w1 in
  now (offline_env "2024-01-02") = now (page_env "2024-01-02") /\
  stored w1 = [mkRow "2024-01-01" "12345 234"] /\
  stored w2 = [mkRow "2024-01-01" "12345 234";
               mkRow "2024-01-02" "12345 234"] /\
  stored w2 <> stored w1 /\ csv_file w2 <> csv_file w1.
Proof.
  intros w1 w2.
  assert (C1 : csv_file w1 = Some one_day).
  { unfold w1. rewrite run_csv. reflexivity. }
  assert (C2 : csv_file w2 =
               Some (one_day ++ [mkRow "2024-01-02" "12345 234"])).
  { unfold w2. rewrite run_csv, page_env_fetch. unfold stored. rewrite C1.
    reflexivity. }
  unfold stored. rewrite C1, C2.
  split; [reflexivity|]. split; [reflexivity|]. split; [reflexivity|].
  split; discriminate.
Qed.

(** C6 (amended) on two runs of 2024-01-02, the second one against a
    failing site. *)
Lemma main_twice_same_day_witness :
  let run1 := run Calendar.iso_day Calendar.strftime Report.format_3f
                Soup.html_parser Regex.findall false (page_env "2024-01-02")
                (world_of (Some one_day)) in
  csv_file run1 = Some (one_day ++ [mkRow "2024-01-02" "12345 234"]) /\
  csv_file (run Calendar.iso_day Calendar.strftime Report.format_3f
              Soup.html_parser Regex.findall false (page_env "2024-01-02") run1)
    = csv_file run1 /\
  csv_file (run Calendar.iso_day Calendar.strftime Report.format_3f
              Soup.html_parser Regex.findall false (offline_env "2024-01-02") run1)
    = csv_file run1.
Proof.
  intros run1. split; [|split].
  - unfold run1. rewrite run_csv, page_env_fetch. reflexivity.
  - destruct (main_twice_same_day Calendar.iso_day Calendar.strftime
                Report.format_3f Soup.html_parser Regex.findall (page_env "2024-01-02")
                (page_env "2024-01-02") (world_of (Some one_day)) eq_refl)
      as [H _].
    apply H. left. eexists. apply page_env_fetch.
  - destruct (main_twice_same_day Calendar.iso_day Calendar.strftime
                Report.format_3f Soup.html_parser Regex.findall (page_env "2024-01-02")
                (offline_env "2024-01-02") (world_of (Some one_day)) eq_refl)
      as [H _].
    apply H. left. eexists. apply page_env_fetch.
Defined.

(** C7 on a forced run of 2024-01-01, a day the history already holds. *)
Lemma forced_run_appends_witness :
  csv_file (run Calendar.iso_day Calendar.strftime Report.format_3f
              Soup.html_parser Regex.findall true (page_env "2024-01-01")
              (world_of (Some one_day)))
    = Some [mkRow "2024-01-01" "12345 234"; mkRow "2024-01-01" "12345 234"] /\
  List.length
    (dated "2024-01-01"
       (stored (run Calendar.iso_day Calendar.strftime Report.format_3f
                  Soup.html_parser Regex.findall true (page_env "2024-01-01")
                  (world_of (Some one_day))))) = 2%nat.
Proof.
  destruct (forced_run_appends Calendar.iso_day Calendar.strftime
              Report.format_3f Soup.html_parser Regex.findall (page_env "2024-01-01")
              (world_of (Some one_day)) "2024-01-01" "12345 234"
              ["45"; "34"]%string (page_env_fetch "2024-01-01"))
    as [_ [C [L _]]].
  split; [exact C|]. rewrite L. reflexivity.
Defined.

(** C9 as stated fails: after a failed GET the reports are not rendered
    when the stored history holds a prize that [int] cannot read; the
    failure of the fetch is printed, then [build_features] raises, the run
    ends with that exception and no page is written. *)
Lemma failed_fetch_no_report :
  let e := offline_env "2024-01-02" in
  let w := world_of (Some unread_day) in
  let w' := run Calendar.iso_day Calendar.strftime Report.format_3f
              Soup.html_parser Regex.findall false e w in
  fetch_latest_from_ketqua Soup.html_parser Regex.findall e
    = Raise ConnectionError /\
  stdout w' = [MsgFailed ConnectionError] /\
  snd (main Calendar.iso_day Calendar.strftime Report.format_3f
         Soup.html_parser Regex.findall false e w) = Raise ValueError /\
  index_html w' = None /\
  index_top3_only_html w' = None.
Proof. vm_compute. repeat split; reflexivity. Qed.

Lemma strftime_one_day : Calendar.strftime 19723 = Ok "2024-01-01"%string.
Proof. vm_compute. reflexivity. Qed.

(** C9 (amended) on a failed GET over the history of the example: the
    failure is printed, the history file stays, and both reports are written
    from the stored history, dated with its latest day. *)
Lemma failed_fetch_still_renders_witness :
  let q := String (ascii_of_nat 34) EmptyString in
  let w := run Calendar.iso_day Calendar.strftime Report.format_3f
             Soup.html_parser Regex.findall false (offline_env "2024-01-02")
             (world_of (Some one_day)) in
  exists t,
    build_features Calendar.iso_day one_day = Ok (t, Some 19723) /\
    csv_file w = Some one_day /\
    stdout w = [MsgFailed ConnectionError] /\
    index_html w = Some
      ("<!doctype html>
<html lang=" ++ q ++ "vi" ++ q ++ "><head>
<meta charset=" ++ q ++ "utf-8" ++ q ++ "/><meta name=" ++ q ++ "viewport"
       ++ q ++ " content=" ++ q ++ "width=device-width, initial-scale=1" ++ q ++ "/>
<title>XSMB Top-3 dự đoán</title>
</head><body>
<h1>Top-3 gợi ý</h1>
<p>Dữ liệu đến: 2024-01-01</p>
<ul>
" ++ (Report.concat_all
          (map (fun r =>
                  "<li>" ++ Report.pad2 (num r) ++ " – score "
                  ++ Report.format_3f (score r) ++ ", 30d: "
                  ++ Text.str_int (freq_30d r) ++ ", recency: "
                  ++ match recency_days r with
                     | Some d => Text.str_int d
                     | None => ""
                     end
                  ++ " ngày</li>")
               (firstn 3 t))) ++ "
</ul>
<p style=" ++ q ++ "color:red" ++ q ++ ">⚠️ Miễn trừ trách nhiệm: Đây chỉ là công cụ thống kê mô tả dựa trên dữ liệu quá khứ. Không đảm bảo kết quả, nội dung chỉ mang tính chất tham khảo. Vui lòng chơi có trách nhiệm.</p>
</body></html>")%string /\
    index_top3_only_html w = Some
      ("<!doctype html>
<html lang=" ++ q ++ "vi" ++ q ++ "><head>
<meta charset=" ++ q ++ "utf-8" ++ q ++ "/><meta name=" ++ q ++ "viewport"
       ++ q ++ " content=" ++ q ++ "width=device-width, initial-scale=1" ++ q ++ "/>
<title>XSMB Top-3 (Compact)</title>
</head><body>
<h1>Top-3 gợi ý</h1>
<p>Dữ liệu đến: 2024-01-01</p>
<ol>
" ++ (Report.concat_all
          (map (fun r =>
                  "<li>" ++ Report.pad2 (num r) ++ " – score "
                  ++ Report.format_3f (score r) ++ "</li>")
               (firstn 3 t))) ++ "
</ol>
<p style=" ++ q ++ "color:red" ++ q ++ ">⚠️ Miễn trừ trách nhiệm: Đây chỉ là công cụ thống kê mô tả dựa trên dữ liệu quá khứ. Không đảm bảo kết quả, nội dung chỉ mang tính chất tham khảo. Vui lòng chơi có trách nhiệm.</p>
</body></html>")%string.
Proof.
  intros q w. destruct one_day_table as [t B]. exists t.
  pose proof (failed_fetch_still_renders Calendar.iso_day Calendar.strftime
                Report.format_3f Soup.html_parser Regex.findall false
                (offline_env "2024-01-02") (world_of (Some one_day))
                ConnectionError eq_refl) as H.
  cbv zeta in H. destruct H as [C [S [H _]]].
  change (stored (world_of (Some one_day))) with one_day in H.
  rewrite B in H. cbv beta iota in H. rewrite strftime_one_day in H.
  cbv beta iota in H. destruct H as [_ [I1 I2]].
  split; [exact B|]. split; [exact C|]. split; [exact S|].
  split; [exact I1|exact I2].
Defined.

(** C10 as stated fails: a table that is not empty but holds only a
    one-digit prize yields the neutral table, where no value has recency 0. *)
Lemma no_recency_on_short_tokens :
  short_token_day <> [] /\
  exists t,
    build_features Calendar.iso_day short_token_day = Ok (t, None) /\
    forall r, In r t -> recency_days r <> Some 0.
Proof.
  split; [discriminate|].
  exists empty_table.
  split; [apply build_features_empty; exact short_token_day_hist|].
  intros r Hr. apply empty_table_rows in Hr. destruct Hr as [_ [_ [-> _]]].
  discriminate.
Qed.

(** A signed prize is recorded under a value outside 0..99: the table has a
    latest day, and still no value has a recency. *)
Lemma no_recency_on_signed_tokens :
  exists t,
    build_features Calendar.iso_day signed_day = Ok (t, Some 19723) /\
    forall r, In r t -> recency_days r = None.
Proof.
  eexists. split.
  - apply (build_features_nonempty_at _ _ _ _ _ signed_day_hist).
    vm_compute. reflexivity.
  - intros r Hr. apply sorted_rows in Hr. apply count_table_rows in Hr.
    unfold feat_counts in Hr. cbn [fst snd] in Hr.
    destruct Hr as [Hn [_ ->]].
    unfold last_seen_at, group. cbn [filter e_num].
    destruct (-5 =? num r) eqn:E; [apply Z.eqb_eq in E; lia|reflexivity].
Qed.

(** C10 (amended) on the example of the specification. *)
Lemma recency_days_spec_witness :
  exists t r,
    build_features Calendar.iso_day one_day = Ok (t, Some 19723) /\
    In r t /\ recency_days r = Some 0.
Proof.
  destruct one_day_table as [t B].
  destruct (recency_days_spec Calendar.iso_day one_day t (Some 19723) B)
    as [hist [_ [_ [_ H]]]].
  destruct (H 19723 eq_refl) as [_ [_ Hd]].
  destruct Hd as [r [Hr Hz]]; [vm_compute; reflexivity|].
  exists t, r. split; [exact B|]. split; [exact Hr|exact Hz].
Defined.

(** * Further properties of the code *)

(** ** Tokens and their last two digits *)

Lemma pad2_two_digits (c1 c2 : ascii) :
  Text.isdigit c1 = true -> Text.isdigit c2 = true ->
  Report.pad2 (10 * (Text.code c1 - 48) + (Text.code c2 - 48)) =
    String c1 (String c2 EmptyString).
Proof.
  intros H1 H2.
  destruct c1 as [[] [] [] [] [] [] [] []]; try discriminate H1; clear H1;
    destruct c2 as [[] [] [] [] [] [] [] []]; try discriminate H2;
    reflexivity.
Qed.

Lemma last2_of_digit_token (x : string) :
  digit_token x = true -> (2 <= String.length x)%nat ->
  last2_of x = Ok (Text.last_two x).
Proof.
  intros Hd L. destruct (last_two_chars x L) as [c1 [c2 [E [I1 I2]]]].
  unfold digit_token in Hd. rewrite forallb_forall in Hd.
  pose proof (Hd _ I1) as D1. pose proof (Hd _ I2) as D2.
  unfold last2_of. rewrite E, (int_two_digits c1 c2 D1 D2).
  rewrite (pad2_two_digits c1 c2 D1 D2). reflexivity.
Qed.

Lemma findall_tokens (html x : string) :
  In x (Regex.findall html) ->
  digit_token x = true /\ (2 <= String.length x <= 5)%nat.
Proof.
  unfold Regex.findall, Regex.is_number. rewrite filter_In.
  intros [_ H]. apply andb_prop in H. destruct H as [H L5].
  apply andb_prop in H. destruct H as [Hd L2].
  apply Nat.leb_le in L2. apply Nat.leb_le in L5. auto.
Qed.

Lemma last2_all_digit_tokens (nums : list string) :
  (forall x, In x nums -> digit_token x = true /\ (2 <= String.length x)%nat) ->
  last2_all nums = Ok (map Text.last_two nums).
Proof.
  induction nums as [|x nums IH]; intros H; [reflexivity|].
  cbn [last2_all map].
  destruct (H x (or_introl eq_refl)) as [Hd L].
  rewrite (last2_of_digit_token x Hd L). cbn [bind].
  rewrite IH; [reflexivity|]. intros y Hy. apply H. right. exact Hy.
Qed.

Lemma fetch_outcomes_eq (html_parser : string -> result unit) (e : env) :
  fetch_latest_from_ketqua html_parser Regex.findall e =
    match answer e with
    | NoAnswer => Raise ConnectionError
    | Response status html =>
        if (400 <=? status) && (status <? 600) then Raise (HTTPError status)
        else
          match html_parser html with
          | Raise x => Raise x
          | Ok _ =>
              match Regex.findall html with
              | [] => Raise RuntimeError
              | nums => Ok (now e, Text.join_sp nums, map Text.last_two nums)
              end
          end
    end.
Proof.
  unfold fetch_latest_from_ketqua, raise_for_status.
  destruct (answer e) as [|status html]; [reflexivity|].
  destruct ((400 <=? status) && (status <? 600)); [reflexivity|].
  cbn [bind]. destruct (html_parser html) as [u|x]; [|reflexivity].
  cbn [bind].
  destruct (Regex.findall html) as [|x nums] eqn:F; [reflexivity|].
  rewrite last2_all_digit_tokens; [reflexivity|].
  intros y Hy. rewrite <- F in Hy. apply findall_tokens in Hy.
  split; [apply Hy|lia].
Qed.

(** X1. With the regular expression of line 31 the fetcher raises only on a
    failed GET, on a 4xx or 5xx status, on a page the HTML parser of line 29
    rejects (with the exception of the parser) and on a page without a
    number, in that order, never on line 36; otherwise it returns the day of
    the clock, the numbers joined by spaces, and for each number its last
    two characters. *)
Theorem fetch_outcomes (html_parser : string -> result unit) (e : env) :
  fetch_latest_from_ketqua html_parser Regex.findall e =
    match answer e with
    | NoAnswer => Raise ConnectionError
    | Response status html =>
        if (400 <=? status) && (status <? 600) then Raise (HTTPError status)
        else
          match html_parser html with
          | Raise x => Raise x
          | Ok _ =>
              match Regex.findall html with
              | [] => Raise RuntimeError
              | nums => Ok (now e, Text.join_sp nums, map Text.last_two nums)
              end
          end
    end.
Proof. apply fetch_outcomes_eq. Qed.

(** X12. A value of 0..99 is shown as two decimal digits, and [int] reads
    the two digits back as the value. *)
Theorem pad2_reads_back (n : Z) :
  0 <= n < 100 ->
  String.length (Report.pad2 n) = 2%nat /\
  digit_token (Report.pad2 n) = true /\
  Text.int (Report.pad2 n) = Some n.
Proof.
  intros Hn. apply range100_spec in Hn.
  assert (H : forallb
                (fun k => (String.length (Report.pad2 k) =? 2)%nat
                          && digit_token (Report.pad2 k)
                          && reads_as (Text.int (Report.pad2 k)) k)
                range100 = true) by (vm_compute; reflexivity).
  rewrite forallb_forall in H. specialize (H n Hn).
  apply andb_prop in H. destruct H as [H H3].
  apply andb_prop in H. destruct H as [H1 H2].
  apply Nat.eqb_eq in H1. split; [exact H1|]. split; [exact H2|].
  unfold reads_as in H3. destruct (Text.int (Report.pad2 n)) as [m|];
    [|discriminate]. apply Z.eqb_eq in H3. subst m. reflexivity.
Qed.

Lemma pad2_reads_back_witness :
  Report.pad2 7 = "07"%string /\ Text.int (Report.pad2 7) = Some 7.
Proof.
  split; [reflexivity|]. apply (pad2_reads_back 7). lia.
Defined.

(** ** The stored row, read back *)

Lemma str_app_nil_r (s : string) : (s ++ "")%string = s.
Proof. induction s as [|c s IH]; simpl; [reflexivity|]. rewrite IH. reflexivity. Qed.

Lemma str_app_assoc (a b c : string) :
  ((a ++ b) ++ c)%string = (a ++ (b ++ c))%string.
Proof. induction a as [|x a IH]; simpl; [reflexivity|]. rewrite IH. reflexivity. Qed.

Lemma split_from_no_space (tok s rest : string) :
  no_space s = true ->
  Text.split_from tok (s ++ rest) = Text.split_from (tok ++ s) rest.
Proof.
  revert tok. induction s as [|c s IH]; intros tok H.
  - simpl. rewrite str_app_nil_r. reflexivity.
  - unfold no_space in H. cbn [list_ascii_of_string forallb] in H.
    apply andb_prop in H. destruct H as [Hc Hs].
    apply negb_true_iff in Hc.
    cbn [append Text.split_from]. rewrite Hc.
    rewrite (IH (tok ++ String c "")%string Hs), str_app_assoc. reflexivity.
Qed.

Lemma flush_nonempty (s : string) : s <> EmptyString -> Text.flush s = [s].
Proof. destruct s; [congruence|reflexivity]. Qed.

(** [" ".join(l).split()] gives [l] back when no element is empty or holds
    white space. *)
Lemma split_join_sp (l : list string) :
  (forall s, In s l -> s <> EmptyString /\ no_space s = true) ->
  Text.split (Text.join_sp l) = l.
Proof.
  unfold Text.split. induction l as [|s l IH]; intros H; [reflexivity|].
  destruct (H s (or_introl eq_refl)) as [Hne Hns].
  destruct l as [|s2 l].
  - cbn [Text.join_sp]. rewrite <- (str_app_nil_r s) at 1.
    rewrite (split_from_no_space _ _ _ Hns). cbn [append Text.split_from].
    apply flush_nonempty. exact Hne.
  - change (Text.join_sp (s :: s2 :: l))
      with (s ++ String " "%char (Text.join_sp (s2 :: l)))%string.
    rewrite (split_from_no_space _ _ _ Hns). cbn [append].
    change (Text.split_from s (String " "%char (Text.join_sp (s2 :: l))))
      with (Text.flush s ++ Text.split_from "" (Text.join_sp (s2 :: l))).
    rewrite (flush_nonempty s Hne), IH; [reflexivity|].
    intros x Hx. apply H. right. exact Hx.
Qed.

Lemma isdigit_not_space (c : ascii) :
  Text.isdigit c = true -> Text.isspace c = false.
Proof.
  intros H. apply isdigit_code in H. unfold Text.isspace. cbv zeta.
  repeat match goal with
         | |- context [?a <=? ?b] => destruct (Z.leb_spec a b)
         | |- context [?a =? ?b] => destruct (Z.eqb_spec a b)
         end; try reflexivity; lia.
Qed.

Lemma digit_token_no_space (s : string) :
  digit_token s = true -> no_space s = true.
Proof.
  unfold digit_token, no_space. rewrite !forallb_forall. intros H c Hc.
  rewrite (isdigit_not_space c (H c Hc)). reflexivity.
Qed.

Lemma tokens_entries_digit_tokens (d : Z) (toks : list string) :
  (forall x, In x toks -> digit_token x = true /\ (2 <= String.length x)%nat) ->
  exists es,
    tokens_entries d toks = Ok es /\
    map (fun x => Report.pad2 (e_num x)) es = map Text.last_two toks /\
    map e_date es = map (fun _ => d) toks.
Proof.
  induction toks as [|s toks IH]; intros H.
  - exists []. repeat split.
  - destruct (H s (or_introl eq_refl)) as [Hd L].
    destruct IH as [es [E [Hn Hdts]]]; [intros y Hy; apply H; right; exact Hy|].
    destruct (last_two_chars s L) as [c1 [c2 [E2 [I1 I2]]]].
    unfold digit_token in Hd. rewrite forallb_forall in Hd.
    pose proof (Hd _ I1) as D1. pose proof (Hd _ I2) as D2.
    rewrite tokens_entries_cons, E.
    apply Nat.leb_le in L. rewrite L, E2, (int_two_digits c1 c2 D1 D2).
    cbn [bind]. eexists. split; [reflexivity|].
    cbn [map e_num e_date]. rewrite Hn, Hdts, (pad2_two_digits c1 c2 D1 D2).
    rewrite <- E2. split; reflexivity.
Qed.

(** X2. The row [main] stores for a fetched page is read back by the loop of
    [build_features] token by token: one entry per number of the page, on
    the day of the row, and the entries shown as two digits are the list
    [last2] of the fetcher. *)
Theorem fetched_row_reads_back (html_parser : string -> result unit)
  (e : env) (today prizes : string) (last2 : list string) (d : Z) :
  fetch_latest_from_ketqua html_parser Regex.findall e
    = Ok (today, prizes, last2) ->
  exists html status es,
    answer e = Response status html /\
    Text.split prizes = Regex.findall html /\
    tokens_entries d (Text.split prizes) = Ok es /\
    map (fun x => Report.pad2 (e_num x)) es = last2 /\
    List.length es = List.length last2 /\
    (forall x, In x es -> e_date x = d /\ 0 <= e_num x < 100).
Proof.
  rewrite fetch_outcomes_eq.
  destruct (answer e) as [|status html]; [discriminate|].
  destruct ((400 <=? status) && (status <? 600)); [discriminate|].
  destruct (html_parser html) as [u|x0]; [|discriminate].
  destruct (Regex.findall html) as [|x nums] eqn:F; [discriminate|].
  intros H. apply Ok_inj in H.
  apply pair_equal_spec in H. destruct H as [H <-].
  apply pair_equal_spec in H. destruct H as [_ <-].
  assert (Htok : forall y, In y (x :: nums) ->
                   digit_token y = true /\ (2 <= String.length y)%nat).
  { intros y Hy. rewrite <- F in Hy. apply findall_tokens in Hy.
    split; [apply Hy|lia]. }
  assert (S : Text.split (Text.join_sp (x :: nums)) = x :: nums).
  { apply split_join_sp. intros y Hy. destruct (Htok y Hy) as [Hd L].
    split; [|apply digit_token_no_space; exact Hd].
    intros ->. simpl in L. lia. }
  destruct (tokens_entries_digit_tokens d (x :: nums) Htok) as [es [E [Hn Hd]]].
  exists html, status, es. rewrite S.
  split; [reflexivity|]. split; [symmetry; exact F|]. split; [exact E|].
  split; [exact Hn|]. split.
  - rewrite <- (length_map (fun x => Report.pad2 (e_num x))), Hn. reflexivity.
  - intros y Hy. eapply tokens_entries_digits; [|exact E|exact Hy].
    apply forallb_forall. intros z Hz. apply Htok. exact Hz.
Qed.

Lemma fetched_row_reads_back_witness :
  exists es,
    tokens_entries 19723 (Text.split "12345 234") = Ok es /\
    map (fun x => Report.pad2 (e_num x)) es = ["45"; "34"]%string.
Proof.
  destruct (fetched_row_reads_back Soup.html_parser
              (page_env "2024-01-01") "2024-01-01"
              "12345 234" ["45"; "34"]%string 19723
              (page_env_fetch "2024-01-01"))
    as [html [status [es [_ [_ [E [Hn _]]]]]]].
  exists es. split; [exact E|exact Hn].
Defined.

(** ** The recorded value is the number modulo 100 *)

Lemma lstrip_no_space (s : string) : no_space s = true -> Text.lstrip s = s.
Proof.
  destruct s as [|c s]; [reflexivity|]. unfold no_space.
  cbn [list_ascii_of_string forallb]. intros H. apply andb_prop in H.
  destruct H as [Hc _]. apply negb_true_iff in Hc.
  cbn [Text.lstrip]. rewrite Hc. reflexivity.
Qed.

Lemma rev_onto_no_space (s acc : string) :
  no_space s = true -> no_space acc = true ->
  no_space (Text.rev_onto s acc) = true.
Proof.
  revert acc. induction s as [|c s IH]; intros acc Hs Ha; [exact Ha|].
  unfold no_space in Hs. cbn [list_ascii_of_string forallb] in Hs.
  apply andb_prop in Hs. destruct Hs as [Hc Hs].
  cbn [Text.rev_onto]. apply IH; [exact Hs|].
  unfold no_space. cbn [list_ascii_of_string forallb]. rewrite Hc. exact Ha.
Qed.

Lemma rev_onto_twice (s a b : string) :
  Text.rev_onto (Text.rev_onto s a) b = Text.rev_onto a (s ++ b).
Proof.
  revert a b. induction s as [|c s IH]; intros a b; [reflexivity|].
  cbn [Text.rev_onto append]. rewrite IH. reflexivity.
Qed.

Lemma strip_no_space (s : string) : no_space s = true -> Text.strip s = s.
Proof.
  intros H. unfold Text.strip. rewrite (lstrip_no_space s H).
  rewrite lstrip_no_space by (apply rev_onto_no_space; [exact H|reflexivity]).
  rewrite rev_onto_twice. cbn [Text.rev_onto]. apply str_app_nil_r.
Qed.

Lemma int_of_digits (s : string) :
  digit_token s = true -> Text.int s = Text.digits_value 0 false s.
Proof.
  intros Hd. unfold Text.int.
  rewrite (strip_no_space s (digit_token_no_space s Hd)).
  destruct s as [|c s]; [reflexivity|].
  unfold digit_token in Hd. cbn [list_ascii_of_string forallb] in Hd.
  apply andb_prop in Hd. destruct Hd as [Hc _].
  destruct c as [[] [] [] [] [] [] [] []]; try discriminate Hc; reflexivity.
Qed.

Lemma digits_value_digits (s : string) (acc : Z) (b : bool) :
  digit_token s = true -> s <> EmptyString \/ b = true ->
  Text.digits_value acc b s = Some (digits_val acc s).
Proof.
  revert acc b. induction s as [|c s IH]; intros acc b Hd Hb.
  - destruct Hb as [Hb| ->]; [congruence|reflexivity].
  - unfold digit_token in Hd. cbn [list_ascii_of_string forallb] in Hd.
    apply andb_prop in Hd. destruct Hd as [Hc Hs].
    cbn [Text.digits_value digits_val]. rewrite Hc.
    apply IH; [exact Hs|right; reflexivity].
Qed.

Lemma digits_val_acc (s : string) (acc : Z) :
  digits_val acc s = acc * 10 ^ Z.of_nat (String.length s) + digits_val 0 s.
Proof.
  revert acc. induction s as [|c s IH]; intros acc.
  - cbn. lia.
  - cbn [digits_val String.length]. rewrite (IH (10 * acc + _)), (IH (10 * 0 + _)).
    rewrite Nat2Z.inj_succ, Z.pow_succ_r by lia. ring.
Qed.

Lemma digits_val_bounds (s : string) :
  digit_token s = true ->
  0 <= digits_val 0 s < 10 ^ Z.of_nat (String.length s).
Proof.
  induction s as [|c s IH]; intros Hd.
  - cbn. lia.
  - unfold digit_token in Hd. cbn [list_ascii_of_string forallb] in Hd.
    apply andb_prop in Hd. destruct Hd as [Hc Hs].
    apply isdigit_code in Hc. specialize (IH Hs).
    cbn [digits_val String.length]. rewrite digits_val_acc.
    rewrite Nat2Z.inj_succ, Z.pow_succ_r by lia. nia.
Qed.

Lemma last_two_tail (c : ascii) (s : string) :
  (2 <= String.length s)%nat ->
  Text.last_two (String c s) = Text.last_two s.
Proof.
  intros L. unfold Text.last_two. cbn [String.length].
  destruct s as [|c1 [|c2 s]]; cbn [String.length] in L; try lia.
  cbn [String.length Nat.sub]. rewrite Nat.sub_0_r. reflexivity.
Qed.

Lemma digits_val_last_two (s : string) :
  digit_token s = true -> (2 <= String.length s)%nat ->
  digits_val 0 (Text.last_two s) = digits_val 0 s mod 100.
Proof.
  induction s as [|c s IH]; intros Hd L; [simpl in L; lia|].
  pose proof (digits_val_bounds _ Hd) as B.
  unfold digit_token in Hd. cbn [list_ascii_of_string forallb] in Hd.
  apply andb_prop in Hd. destruct Hd as [Hc Hs].
  destruct (le_lt_dec 2 (String.length s)) as [L2|L1].
  - rewrite (last_two_tail c s L2), (IH Hs L2).
    cbn [digits_val].
    rewrite (digits_val_acc s (10 * 0 + (Text.code c - 48))).
    replace (Z.of_nat (String.length s))
      with (2 + Z.of_nat (String.length s - 2)) by lia.
    rewrite Z.pow_add_r by lia.
    replace ((10 * 0 + (Text.code c - 48))
             * (10 ^ 2 * 10 ^ Z.of_nat (String.length s - 2))
             + digits_val 0 s)
      with (digits_val 0 s
            + ((Text.code c - 48) * 10 ^ Z.of_nat (String.length s - 2)) * 100)
      by ring.
    symmetry. apply Z_mod_plus_full.
  - destruct s as [|c1 [|c2 s]]; cbn [String.length] in L, L1; try lia.
    change (Text.last_two (String c (String c1 "")))
      with (String c (String c1 "")).
    cbn [String.length] in B. change (10 ^ Z.of_nat 2) with 100 in B.
    symmetry. apply Z.mod_small. exact B.
Qed.

(** X10. For a prize written in decimal digits (two at least, and no more
    than [int] accepts) the value [build_features] records is the prize
    number modulo 100. *)
Theorem recorded_value_mod_100 (d : Z) (s : string) :
  digit_token s = true -> (2 <= String.length s <= 4300)%nat ->
  exists v,
    Text.int s = Some v /\ 0 <= v /\
    Text.int (Text.last_two s) = Some (v mod 100) /\
    tokens_entries d [s] = Ok [mkEntry d (v mod 100)].
Proof.
  intros Hd [L _]. exists (digits_val 0 s).
  assert (Hne : s <> EmptyString) by (intros ->; simpl in L; lia).
  assert (I : Text.int s = Some (digits_val 0 s)).
  { rewrite (int_of_digits s Hd). apply digits_value_digits; auto. }
  destruct (last_two_chars s L) as [c1 [c2 [E [I1 I2]]]].
  unfold digit_token in Hd. rewrite forallb_forall in Hd.
  pose proof (Hd _ I1) as D1. pose proof (Hd _ I2) as D2.
  assert (Hd' : digit_token s = true) by (apply forallb_forall; exact Hd).
  assert (I' : Text.int (Text.last_two s) = Some (digits_val 0 s mod 100)).
  { rewrite <- (digits_val_last_two s Hd' L), E.
    rewrite (int_two_digits c1 c2 D1 D2). cbn [digits_val].
    f_equal; lia. }
  split; [exact I|]. split; [apply digits_val_bounds; exact Hd'|].
  split; [exact I'|].
  rewrite tokens_entries_cons, I'. apply Nat.leb_le in L. rewrite L.
  reflexivity.
Qed.

Lemma recorded_value_mod_100_witness :
  Text.int "12345" = Some 12345 /\
  tokens_entries 19723 ["12345"%string] = Ok [mkEntry 19723 45].
Proof.
  destruct (recorded_value_mod_100 19723 "12345") as [v [I [_ [_ T]]]];
    [reflexivity|cbn; lia|].
  assert (E : Some v = Some 12345) by (rewrite <- I; reflexivity).
  injection E as ->. split; [reflexivity|exact T].
Defined.

(** ** The order of the rows does not matter *)

Lemma filter_perm {A : Type} (f : A -> bool) (l l' : list A) :
  Permutation l l' -> Permutation (filter f l) (filter f l').
Proof.
  induction 1 as [|x l l' _ IH|x y l|l l' l'' _ IH1 _ IH2]; cbn [filter].
  - constructor.
  - destruct (f x); [apply perm_skip|]; exact IH.
  - destruct (f x), (f y); try apply Permutation_refl. apply perm_swap.
  - eapply Permutation_trans; eassumption.
Qed.

Lemma max_date_unique (e : entry) (es : list entry) (m : Z) :
  (forall x, In x (e :: es) -> e_date x <= m) ->
  (exists x, In x (e :: es) /\ e_date x = m) ->
  max_date e es = m.
Proof.
  intros Hub [x [Hx Hm]].
  destruct (max_date_attained e es) as [y [Hy Hmax]].
  pose proof (max_date_ge e es x Hx). pose proof (Hub y Hy). lia.
Qed.

Lemma max_date_perm (e e' : entry) (es es' : list entry) :
  Permutation (e :: es) (e' :: es') -> max_date e es = max_date e' es'.
Proof.
  intros P. apply max_date_unique.
  - intros x Hx. apply max_date_ge. eapply Permutation_in; eassumption.
  - destruct (max_date_attained e' es') as [x [Hx Hm]]. exists x.
    split; [|exact Hm].
    eapply Permutation_in; [apply Permutation_sym; exact P|exact Hx].
Qed.

Lemma size_at_perm (l l' : list entry) (n : Z) :
  Permutation l l' -> size_at l n = size_at l' n.
Proof.
  intros P. rewrite !size_at_length. f_equal.
  apply Permutation_length. apply filter_perm. exact P.
Qed.

Lemma last_seen_perm (l l' : list entry) (n : Z) :
  Permutation l l' -> last_seen_at l n = last_seen_at l' n.
Proof.
  intros P. unfold last_seen_at.
  pose proof (filter_perm (fun e => e_num e =? n) l l' P) as G.
  fold (group l n) in G. fold (group l' n) in G.
  destruct (group l n) as [|g gs], (group l' n) as [|g' gs'].
  - reflexivity.
  - apply Permutation_nil in G. discriminate.
  - apply Permutation_sym, Permutation_nil in G. discriminate.
  - f_equal. apply max_date_perm. exact G.
Qed.

Lemma count_table_perm (e e' : entry) (es es' : list entry) :
  Permutation (e :: es) (e' :: es') -> count_table e es = count_table e' es'.
Proof.
  intros P. unfold count_table. rewrite (max_date_perm e e' es es' P).
  f_equal. apply map_ext. intros n. f_equal; [f_equal|].
  - apply size_at_perm. apply filter_perm. exact P.
  - rewrite (last_seen_perm _ _ n P). reflexivity.
Qed.

Section RowOrder.

Variable to_datetime : string -> option Z.

Lemma hist_rows_cons_inv (r : row) (df : history) (h : list entry) :
  hist_rows to_datetime (r :: df) = Ok h ->
  exists d es es',
    to_datetime (date r) = Some d /\
    tokens_entries d (Text.split (all_prizes r)) = Ok es /\
    hist_rows to_datetime df = Ok es' /\ h = es ++ es'.
Proof.
  rewrite hist_rows_cons.
  destruct (to_datetime (date r)) as [d|] eqn:D; [|discriminate].
  destruct (tokens_entries d (Text.split (all_prizes r))) as [es|] eqn:T;
    [|discriminate].
  destruct (hist_rows to_datetime df) as [es'|] eqn:E; [|discriminate].
  cbn [bind]. intros H. apply Ok_inj in H. exists d, es, es'.
  split; [reflexivity|]. split; [exact T|]. split; [reflexivity|].
  symmetry. exact H.
Qed.

Lemma hist_rows_cons_ok (r : row) (df : history) (d : Z)
  (es es' : list entry) :
  to_datetime (date r) = Some d ->
  tokens_entries d (Text.split (all_prizes r)) = Ok es ->
  hist_rows to_datetime df = Ok es' ->
  hist_rows to_datetime (r :: df) = Ok (es ++ es').
Proof. intros D T H. rewrite hist_rows_cons, D, T, H. reflexivity. Qed.

Lemma hist_rows_perm (df df' : history) :
  Permutation df df' ->
  forall h, hist_rows to_datetime df = Ok h ->
  exists h', hist_rows to_datetime df' = Ok h' /\ Permutation h h'.
Proof.
  induction 1 as [|r df df' _ IH|r1 r2 df|df df' df'' _ IH1 _ IH2]; intros h H.
  - exists h. split; [exact H|apply Permutation_refl].
  - apply hist_rows_cons_inv in H.
    destruct H as [d [es [es' [D [T [H ->]]]]]].
    destruct (IH es' H) as [h' [H' P]].
    exists (es ++ h'). split; [eapply hist_rows_cons_ok; eassumption|].
    apply Permutation_app_head. exact P.
  - apply hist_rows_cons_inv in H.
    destruct H as [d2 [es2 [h2 [D2 [T2 [H ->]]]]]].
    apply hist_rows_cons_inv in H.
    destruct H as [d1 [es1 [h1 [D1 [T1 [H ->]]]]]].
    exists (es1 ++ es2 ++ h1). split.
    + eapply hist_rows_cons_ok; [eassumption|eassumption|].
      eapply hist_rows_cons_ok; eassumption.
    + apply Permutation_app_swap_app.
  - destruct (IH1 h H) as [h' [H' P]]. destruct (IH2 h' H') as [h'' [H'' P']].
    exists h''. split; [exact H''|]. eapply Permutation_trans; eassumption.
Qed.

Lemma build_features_perm (df df' : history) (t : list feat) (ld : option Z) :
  Permutation df df' ->
  build_features to_datetime df = Ok (t, ld) ->
  build_features to_datetime df' = Ok (t, ld).
Proof.
  intros P H. apply build_features_inv in H.
  destruct H as [hist [Hh [[Eh [Et Eld]]|[e [es [Eh [Et Eld]]]]]]];
    destruct (hist_rows_perm df df' P hist Hh) as [h' [Hh' Ph]]; subst hist.
  - apply Permutation_nil in Ph. subst h' t ld.
    apply build_features_empty. exact Hh'.
  - destruct h' as [|e' es'];
      [apply Permutation_sym, Permutation_nil in Ph; discriminate|].
    rewrite (build_features_nonempty _ _ _ _ Hh').
    rewrite <- (count_table_perm e e' es es' Ph). subst t ld. reflexivity.
Qed.

(** X3. The feature table does not depend on the order of the rows of the
    history: a table that returns on the rows in one order returns the same
    table and latest day on them in any other order. *)
Theorem build_features_row_order (df df' : history) (t : list feat)
  (ld : option Z) :
  Permutation df df' ->
  build_features to_datetime df = Ok (t, ld) ->
  build_features to_datetime df' = Ok (t, ld).
Proof. apply build_features_perm. Qed.

(** The rows on which the loop of lines 47-52 raises nothing are the
    well-formed ones. *)
Lemma tokens_entries_ok_inv (d : Z) (toks : list string) (es : list entry) :
  tokens_entries d toks = Ok es -> forallb token_ok toks = true.
Proof.
  revert es. induction toks as [|s toks IH]; intros es H; [reflexivity|].
  rewrite tokens_entries_cons in H. cbn [forallb]. unfold token_ok at 1.
  destruct (2 <=? String.length s)%nat eqn:L.
  - destruct (Text.int (Text.last_two s)) as [n|]; [|discriminate].
    destruct (tokens_entries d toks) as [es'|]; [|discriminate].
    rewrite (IH es' eq_refl). cbn [is_some]. rewrite orb_true_r. reflexivity.
  - apply Nat.leb_gt in L. apply Nat.ltb_lt in L. rewrite L.
    cbn [orb andb]. eapply IH. exact H.
Qed.

Lemma hist_rows_ok_inv (df : history) (h : list entry) :
  hist_rows to_datetime df = Ok h -> well_formed to_datetime df = true.
Proof.
  revert h. induction df as [|r df IH]; intros h H; [reflexivity|].
  apply hist_rows_cons_inv in H. destruct H as [d [es [es' [D [T [H _]]]]]].
  cbn [well_formed forallb]. unfold row_ok at 1. rewrite D.
  rewrite (tokens_entries_ok_inv _ _ _ T). cbn [is_some andb].
  eapply IH. exact H.
Qed.

(** X13. [build_features] returns exactly on the tables in which every date
    parses and every token of two or more characters ends in a literal
    [int] reads; on every other table it raises. *)
Theorem build_features_returns_iff (df : history) :
  (exists t ld, build_features to_datetime df = Ok (t, ld))
  <-> well_formed to_datetime df = true.
Proof.
  split.
  - intros [t [ld H]]. apply build_features_inv in H.
    destruct H as [hist [Hh _]]. eapply hist_rows_ok_inv. exact Hh.
  - apply build_features_total.
Qed.

End RowOrder.

Lemma two_days_hist :
  hist_rows Calendar.iso_day two_days =
    Ok [mkEntry 19723 45; mkEntry 19723 34; mkEntry 19783 45; mkEntry 19783 99].
Proof. vm_compute. reflexivity. Qed.

Lemma two_days_table :
  exists t, build_features Calendar.iso_day two_days = Ok (t, Some 19783).
Proof.
  eexists. apply (build_features_nonempty_at _ _ _ _ _ two_days_hist).
  vm_compute. reflexivity.
Qed.

Lemma build_features_row_order_witness :
  exists t,
    build_features Calendar.iso_day two_days = Ok (t, Some 19783) /\
    build_features Calendar.iso_day two_days_swapped = Ok (t, Some 19783).
Proof.
  destruct two_days_table as [t B]. exists t. split; [exact B|].
  apply (build_features_row_order Calendar.iso_day two_days two_days_swapped
           t (Some 19783)); [apply perm_swap|exact B].
Defined.

(** ** Frequency against recency, and the total of the counts *)

Section WindowFacts.

Variable to_datetime : string -> option Z.

Lemma size_at_positive (l : list entry) (n : Z) :
  0 < size_at l n <-> exists x, In x l /\ e_num x = n.
Proof.
  rewrite size_at_length. split.
  - intros H. destruct (group l n) as [|g gs] eqn:G; [simpl in H; lia|].
    exists g. apply group_spec. rewrite G. left. reflexivity.
  - intros [x Hx]. apply group_spec in Hx.
    destruct (group l n); [contradiction|cbn [List.length]; lia].
Qed.

Lemma last_seen_attained (l : list entry) (n d : Z) :
  last_seen_at l n = Some d -> exists x, In x l /\ e_num x = n /\ e_date x = d.
Proof.
  unfold last_seen_at. destruct (group l n) as [|g gs] eqn:G; [discriminate|].
  intros H. apply Some_inj in H. subst d.
  destruct (max_date_attained g gs) as [x [Hx Hd]].
  rewrite <- G in Hx. apply group_spec in Hx. exists x. tauto.
Qed.

Lemma last_seen_ge (l : list entry) (n d : Z) (x : entry) :
  last_seen_at l n = Some d -> In x l -> e_num x = n -> e_date x <= d.
Proof.
  unfold last_seen_at. destruct (group l n) as [|g gs] eqn:G; [discriminate|].
  intros H Hx Hn. apply Some_inj in H. subst d.
  apply max_date_ge. rewrite <- G. apply group_spec. auto.
Qed.

(** X5. A value has a positive 30-day frequency exactly when its recency is
    defined and at most 29 days. *)
Theorem positive_freq_iff_recent (df : history) (t : list feat) (ld : Z)
  (r : feat) :
  build_features to_datetime df = Ok (t, Some ld) -> In r t ->
  (0 < freq_30d r <-> exists d, recency_days r = Some d /\ 0 <= d <= 29).
Proof.
  intros H Hr.
  destruct (build_features_rows _ _ _ _ _ H Hr)
    as [e [es [_ [Eld [_ [Hf Hrec]]]]]].
  rewrite Hf, Hrec, size_at_positive. split.
  - intros [x [Hx Hn]]. unfold in_window in Hx. apply filter_In in Hx.
    destruct Hx as [Hx Hw]. apply Z.leb_le in Hw.
    destruct (last_seen_at (e :: es) (num r)) as [d|] eqn:L.
    + exists (ld - d). split; [reflexivity|].
      pose proof (last_seen_ge _ _ _ _ L Hx Hn).
      pose proof (last_seen_le _ _ _ _ L). lia.
    + exfalso. revert L. apply last_seen_defined. exists x. auto.
  - intros [d [Hd Hb]].
    destruct (last_seen_at (e :: es) (num r)) as [d'|] eqn:L; [|discriminate].
    cbn [option_map] in Hd. apply Some_inj in Hd.
    destruct (last_seen_attained _ _ _ L) as [x [Hx [Hn Hdx]]].
    exists x. split; [|exact Hn]. unfold in_window. apply filter_In.
    split; [exact Hx|]. apply Z.leb_le. lia.
Qed.

Lemma sum_perm (l l' : list Z) :
  Permutation l l' -> fold_right Z.add 0 l = fold_right Z.add 0 l'.
Proof.
  induction 1 as [|x l l' _ IH|x y l|l l' l'' _ IH1 _ IH2]; cbn [fold_right];
    lia.
Qed.

Lemma sum_indicator (k : Z) (l : list Z) :
  NoDup l ->
  fold_right Z.add 0 (map (fun n => if k =? n then 1 else 0) l) =
    if existsb (Z.eqb k) l then 1 else 0.
Proof.
  induction 1 as [|x l Hx _ IH]; [reflexivity|].
  cbn [map fold_right existsb]. rewrite IH.
  destruct (Z.eqb_spec k x) as [->|Hne]; cbn [orb]; [|reflexivity].
  destruct (existsb (Z.eqb x) l) eqn:E; [|reflexivity].
  apply existsb_exists in E. destruct E as [y [Hy E]].
  apply Z.eqb_eq in E. subst y. contradiction.
Qed.

Lemma sum_size_at (l : list entry) :
  fold_right Z.add 0 (map (size_at l) range100) =
    Z.of_nat
      (List.length
         (filter (fun x => (0 <=? e_num x) && (e_num x <? 100)) l)).
Proof.
  induction l as [|x l IH].
  - cbn [filter List.length]. unfold size_at, group. cbn [filter].
    induction range100 as [|n ns IHn]; [reflexivity|].
    cbn [map fold_right]. rewrite IHn. reflexivity.
  - assert (E : forall ns,
               fold_right Z.add 0 (map (size_at (x :: l)) ns) =
               fold_right Z.add 0
                 (map (fun n => if e_num x =? n then 1 else 0) ns)
               + fold_right Z.add 0 (map (size_at l) ns)).
    { induction ns as [|n ns IHn]; [reflexivity|].
      cbn [map fold_right]. rewrite IHn, !size_at_length.
      unfold group. cbn [filter].
      destruct (e_num x =? n); cbn [List.length]; lia. }
    rewrite E, IH, (sum_indicator _ _ range100_NoDup). cbn [filter].
    assert (B : existsb (Z.eqb (e_num x)) range100
                = (0 <=? e_num x) && (e_num x <? 100)).
    { destruct (existsb (Z.eqb (e_num x)) range100) eqn:Ex.
      - apply existsb_exists in Ex. destruct Ex as [y [Hy Ey]].
        apply Z.eqb_eq in Ey. subst y. apply range100_spec in Hy.
        symmetry. apply andb_true_intro.
        split; [apply Z.leb_le|apply Z.ltb_lt]; lia.
      - destruct ((0 <=? e_num x) && (e_num x <? 100)) eqn:R; [|reflexivity].
        apply andb_prop in R. destruct R as [R1 R2].
        apply Z.leb_le in R1. apply Z.ltb_lt in R2.
        assert (Hin : In (e_num x) range100) by (apply range100_spec; lia).
        assert (Ht : existsb (Z.eqb (e_num x)) range100 = true).
        { apply existsb_exists. exists (e_num x).
          split; [exact Hin|apply Z.eqb_refl]. }
        congruence. }
    rewrite B. destruct ((0 <=? e_num x) && (e_num x <? 100));
      cbn [List.length]; lia.
Qed.

(** X4. The frequencies of the table add up to the number of entries of the
    window whose value lies in 0..99: every such entry is counted once, under
    its value. *)
Theorem freq_30d_total (df : history) (t : list feat) (ld : Z) :
  build_features to_datetime df = Ok (t, Some ld) ->
  exists hist,
    hist_rows to_datetime df = Ok hist /\
    fold_right Z.add 0 (map freq_30d t) =
      Z.of_nat
        (List.length
           (filter (fun x => (0 <=? e_num x) && (e_num x <? 100))
                   (window_entries hist (Some ld)))).
Proof.
  intros H. apply build_features_inv in H.
  destruct H as [hist [Hh [[_ [_ Eld]]|[e [es [Eh [Et Eld]]]]]]];
    [discriminate Eld|].
  rewrite count_table_latest in Eld. apply Some_inj in Eld. subst hist ld.
  exists (e :: es). split; [exact Hh|].
  cbn [window_entries]. rewrite <- sum_size_at.
  assert (P : Permutation (map freq_30d t)
                (map (size_at (in_window (max_date e es - 29) (e :: es)))
                     range100)).
  { rewrite Et.
    eapply Permutation_trans;
      [apply Permutation_map, Permutation_sym, sort_values_perm|].
    replace (map freq_30d (with_score (snd (count_table e es))))
      with (map (fun c : Z * Z * option Z => snd (fst c))
                (map feat_counts (with_score (snd (count_table e es)))))
      by (rewrite map_map; reflexivity).
    rewrite with_score_counts. unfold count_table. cbn [snd].
    rewrite map_map. cbn [fst snd]. apply Permutation_refl. }
  apply sum_perm. exact P.
Qed.

End WindowFacts.

Lemma positive_freq_iff_recent_witness :
  exists t r,
    build_features Calendar.iso_day two_days = Ok (t, Some 19783) /\
    In r t /\ num r = 34 /\ freq_30d r = 0 /\ recency_days r = Some 60 /\
    (0 < freq_30d r <-> exists d, recency_days r = Some d /\ 0 <= d <= 29).
Proof.
  destruct (build_features_row_at Calendar.iso_day two_days _ _ 34 0 (Some 60)
              two_days_hist) as [t [r [B [Hr [Hn [Hf Hrec]]]]]].
  { apply count_table_rows. cbn [fst snd]. split; [lia|].
    split; vm_compute; reflexivity. }
  assert (B' : build_features Calendar.iso_day two_days = Ok (t, Some 19783))
    by exact B.
  exists t, r. split; [exact B'|]. split; [exact Hr|]. split; [exact Hn|].
  split; [exact Hf|]. split; [exact Hrec|].
  apply (positive_freq_iff_recent Calendar.iso_day two_days t 19783 r B' Hr).
Defined.

Lemma freq_30d_total_witness :
  exists t,
    build_features Calendar.iso_day two_days = Ok (t, Some 19783) /\
    fold_right Z.add 0 (map freq_30d t) = 2.
Proof.
  destruct two_days_table as [t B]. exists t. split; [exact B|].
  destruct (freq_30d_total Calendar.iso_day two_days t 19783 B)
    as [hist [Hh S]].
  rewrite two_days_hist in Hh. apply Ok_inj in Hh. subst hist.
  rewrite S. vm_compute. reflexivity.
Defined.

(** ** The rows the reports show *)

Lemma StronglySorted_app_inv {A : Type} (R : A -> A -> Prop) (l l' : list A) :
  StronglySorted R (l ++ l') ->
  forall a b, In a l -> In b l' -> R a b.
Proof.
  induction l as [|x l IH]; intros S a b Ha Hb; [contradiction|].
  cbn [app] in S. apply StronglySorted_inv in S. destruct S as [S F].
  destruct Ha as [<-|Ha].
  - rewrite Forall_forall in F. apply F. apply in_or_app. right. exact Hb.
  - eapply IH; eassumption.
Qed.

Lemma NoDup_app_disjoint {A : Type} (l l' : list A) (a : A) :
  NoDup (l ++ l') -> In a l -> In a l' -> False.
Proof.
  induction l as [|x l IH]; intros N Ha Hb; [contradiction|].
  cbn [app] in N. apply NoDup_cons_iff in N. destruct N as [Hx N].
  destruct Ha as [->|Ha].
  - apply Hx. apply in_or_app. right. exact Hb.
  - apply IH; assumption.
Qed.

Lemma feat_le_score_ge (a b : feat) : feat_le a b -> score_ge (score a) (score b).
Proof.
  unfold feat_le, score_ge.
  destruct (score a) as [x|], (score b) as [y|]; try tauto.
  intros [H|[-> _]]; [lra|apply Rle_refl].
Qed.

(** X6. Each report lists three rows, the first three of the table, and no
    row left out has a higher score than a row that is listed. *)
Theorem reports_show_top_three (to_datetime : string -> option Z)
  (df : history) (t : list feat) (ld : option Z) :
  build_features to_datetime df = Ok (t, ld) ->
  List.length (Report.head 3 t) = 3%nat /\
  t = Report.head 3 t ++ skipn 3 t /\
  (forall a b, In a (Report.head 3 t) -> In b (skipn 3 t) ->
     score_ge (score a) (score b) /\ num a <> num b).
Proof.
  intros H. pose proof (build_features_length _ _ _ _ H) as L.
  pose proof (build_features_strongly_sorted _ _ _ _ H) as S.
  pose proof (build_features_nums_NoDup _ _ _ _ H) as N.
  unfold Report.head.
  split; [rewrite length_firstn, L; reflexivity|].
  split; [symmetry; apply firstn_skipn|].
  intros a b Ha Hb. rewrite <- (firstn_skipn 3 t) in S, N. split.
  - apply feat_le_score_ge. eapply StronglySorted_app_inv; eassumption.
  - rewrite map_app in N. intros E.
    apply (NoDup_app_disjoint _ _ (num a) N).
    + apply in_map. exact Ha.
    + rewrite E. apply in_map. exact Hb.
Qed.

Lemma reports_show_top_three_witness :
  exists t,
    build_features Calendar.iso_day one_day = Ok (t, Some 19723) /\
    List.length (Report.head 3 t) = 3%nat.
Proof.
  destruct one_day_table as [t B]. exists t. split; [exact B|].
  apply (reports_show_top_three Calendar.iso_day one_day t (Some 19723) B).
Defined.

(** ** More on one run of main *)

Section PipelineExtras.

Variable to_datetime : string -> option Z.
Variable strftime : Z -> result string.
Variable format_3f : option R -> string.
Variable html_parser : string -> result unit.
Variable findall : string -> list string.

Local Abbreviation fetch := (fetch_latest_from_ketqua html_parser findall).
Local Abbreviation render_from := (render to_datetime strftime format_3f).
Local Abbreviation main_run :=
  (main to_datetime strftime format_3f html_parser findall).
Local Abbreviation run_of :=
  (run to_datetime strftime format_3f html_parser findall).

(** X9. Without the force flag a run keeps the dates of the history
    distinct: a history with one row per day stays so. *)
Theorem one_row_per_day_kept (e : env) (w : world) :
  NoDup (map date (stored w)) ->
  NoDup (map date (stored (run_of false e w))).
Proof.
  intros N. rewrite run_stored.
  destruct (fetch e) as [[[today prizes] l2]|ex]; [|exact N].
  cbn [orb]. destruct (today_absent today (stored w)) eqn:B; [|exact N].
  rewrite map_app. cbn [map date].
  apply NoDup_app; [exact N|repeat constructor; intros []|].
  intros d Hd [E|[]]. subst d.
  apply (today_absent_false today) in Hd. congruence.
Qed.

(** X8. The reports show the table the run holds after the fetch step: the
    table read, followed by the fetched row when one is appended.  When
    [build_features] returns on that table and its latest day can be
    formatted, the run ends well and both pages are written, with that day
    after the label and the first three rows of the feature table in the
    list; when either step raises, the run ends with that exception and
    leaves both pages as they were, although a new row may already have been
    saved. *)
Theorem reports_follow_table_held (force : bool) (e : env) (w : world) :
  let q := String (ascii_of_nat 34) EmptyString in
  let w' := run_of force e w in
  let untouched (x : exn) :=
    snd (main_run force e w) = Raise x /\
    index_html w' = index_html w /\
    index_top3_only_html w' = index_top3_only_html w in
  let held :=
    match fetch e with
    | Ok (today, prizes, _) =>
        if force || today_absent today (stored w)
        then stored w ++ [mkRow today prizes]
        else stored w
    | Raise _ => stored w
    end in
  match build_features to_datetime held with
  | Raise x => untouched x
  | Ok (f, ld) =>
      match match ld with
            | Some d => strftime d
            | None => Ok EmptyString
            end with
      | Raise x => untouched x
      | Ok text =>
          snd (main_run force e w) = Ok tt /\
          index_html w' = Some
            ("<!doctype html>
<html lang=" ++ q ++ "vi" ++ q ++ "><head>
<meta charset=" ++ q ++ "utf-8" ++ q ++ "/><meta name=" ++ q ++ "viewport"
             ++ q ++ " content=" ++ q ++ "width=device-width, initial-scale=1"
             ++ q ++ "/>
<title>XSMB Top-3 dự đoán</title>
</head><body>
<h1>Top-3 gợi ý</h1>
<p>Dữ liệu đến: " ++ text ++ "</p>
<ul>
" ++ (Report.concat_all
                   (map (fun r =>
                           "<li>" ++ Report.pad2 (num r) ++ " – score "
                           ++ format_3f (score r) ++ ", 30d: "
                           ++ Text.str_int (freq_30d r) ++ ", recency: "
                           ++ match recency_days r with
                              | Some d => Text.str_int d
                              | None => ""
                              end
                           ++ " ngày</li>")
                        (firstn 3 f))) ++ "
</ul>
<p style=" ++ q ++ "color:red" ++ q ++ ">⚠️ Miễn trừ trách nhiệm: Đây chỉ là công cụ thống kê mô tả dựa trên dữ liệu quá khứ. Không đảm bảo kết quả, nội dung chỉ mang tính chất tham khảo. Vui lòng chơi có trách nhiệm.</p>
</body></html>")%string /\
          index_top3_only_html w' = Some
            ("<!doctype html>
<html lang=" ++ q ++ "vi" ++ q ++ "><head>
<meta charset=" ++ q ++ "utf-8" ++ q ++ "/><meta name=" ++ q ++ "viewport"
             ++ q ++ " content=" ++ q ++ "width=device-width, initial-scale=1"
             ++ q ++ "/>
<title>XSMB Top-3 (Compact)</title>
</head><body>
<h1>Top-3 gợi ý</h1>
<p>Dữ liệu đến: " ++ text ++ "</p>
<ol>
" ++ (Report.concat_all
                   (map (fun r =>
                           "<li>" ++ Report.pad2 (num r) ++ " – score "
                           ++ format_3f (score r) ++ "</li>")
                        (firstn 3 f))) ++ "
</ol>
<p style=" ++ q ++ "color:red" ++ q ++ ">⚠️ Miễn trừ trách nhiệm: Đây chỉ là công cụ thống kê mô tả dựa trên dữ liệu quá khứ. Không đảm bảo kết quả, nội dung chỉ mang tính chất tham khảo. Vui lòng chơi có trách nhiệm.</p>
</body></html>")%string
      end
  end.
Proof.
  cbv zeta. unfold run. rewrite main_eq.
  destruct (fetch e) as [[[today prizes] l2]|ex];
    [destruct (force || today_absent today (stored w))|];
    cbv beta iota; rewrite render_eq;
    match goal with
    | |- context [build_features to_datetime ?d] =>
        destruct (build_features to_datetime d) as [[f ld]|x]
    end;
    try (cbn [fst snd]; unfold loaded; destruct (csv_file w); auto; fail);
    unfold Report.data_as_of;
    (destruct (match ld with Some d => strftime d | None => Ok EmptyString end)
       as [text|x];
     [|cbn [fst snd]; unfold loaded; destruct (csv_file w); auto; fail]);
    cbn [fst snd]; (split; [reflexivity|]);
    unfold reported, write_index, write_compact, log;
    cbn [fst index_html index_top3_only_html]; split; f_equal;
    unfold Report.head, Report.item, Report.item_compact; same_text.
Qed.

(** X14. What a run prints and the order in which it touches the files: the
    history is read first (when it exists), then rewritten (when a row is
    added), then [index.html] and after it [index_top3_only.html] are written
    (when the rendering raises nothing); it prints one line when a row is
    added or the fetch failed, and nothing otherwise. *)
Theorem run_trace_and_output (force : bool) (e : env) (w : world) :
  let added :=
    match fetch e with
    | Ok (today, _, _) => force || today_absent today (stored w)
    | Raise _ => false
    end in
  trace (run_of force e w) =
    trace w
    ++ (match csv_file w with Some _ => [ReadCsv] | None => [] end)
    ++ (if added then [WriteCsv] else [])
    ++ (match snd (main_run force e w) with
        | Ok _ => [WriteIndex; WriteCompact]
        | Raise _ => []
        end) /\
  stdout (run_of force e w) =
    stdout w
    ++ match fetch e with
       | Ok (today, _, _) => if added then [MsgAdded today] else []
       | Raise ex => [MsgFailed ex]
       end.
Proof.
  cbv zeta. unfold run. rewrite main_eq.
  destruct (fetch e) as [[[today prizes] l2]|ex];
    [destruct (force || today_absent today (stored w))|];
    rewrite render_trace, render_stdout;
    match goal with
    | |- context [snd (render to_datetime strftime format_3f ?d ?v)] =>
        destruct (snd (render to_datetime strftime format_3f d v))
    end;
    cbn [snd printed saved print to_csv fst trace stdout log];
    rewrite loaded_trace; unfold loaded; destruct (csv_file w);
    cbn [stdout log]; rewrite <- ?app_assoc, ?app_nil_r; split; reflexivity.
Qed.

End PipelineExtras.

Lemma one_row_per_day_kept_witness :
  NoDup
    (map date
       (stored (run Calendar.iso_day Calendar.strftime Report.format_3f
                  Soup.html_parser Regex.findall false (page_env "2024-01-01")
                  (world_of (Some one_day))))).
Proof.
  apply one_row_per_day_kept. repeat constructor. intros [].
Defined.

(** ** The score follows both signals *)

Section ScoreOrder.

Local Open Scope R_scope.

Lemma maxl_bound (l : list R) (M : R) :
  Series.maxl l = Some M -> forall x, In x l -> x <= M.
Proof.
  revert M. induction l as [|y l IH]; intros M H x Hx; [contradiction|].
  cbn [Series.maxl] in H. destruct (Series.maxl l) as [M'|] eqn:E.
  - apply Some_inj in H. subst M. destruct Hx as [<-|Hx].
    + apply Rmax_l.
    + eapply Rle_trans; [apply (IH M' eq_refl x Hx)|apply Rmax_r].
  - apply Some_inj in H. subst M. destruct Hx as [<-|Hx]; [apply Rle_refl|].
    destruct l; [contradiction|]. cbn [Series.maxl] in E.
    destruct (Series.maxl l); discriminate.
Qed.

Lemma valid_In (s : Series.t) (v : R) : In (Some v) s -> In v (Series.valid s).
Proof.
  induction s as [|x s IH]; [contradiction|].
  intros [->|H]; [left; reflexivity|].
  destruct x; cbn [Series.valid]; [right|]; apply IH; exact H.
Qed.

Lemma max_unfold (s : Series.t) :
  Series.max s = Series.maxl (Series.valid s).
Proof. reflexivity. Qed.

Lemma max_None (s : Series.t) :
  Series.max s = None -> forall x, In x s -> x = None.
Proof.
  unfold Series.max. intros H x Hx. destruct x as [v|]; [|reflexivity].
  apply valid_In in Hx. destruct (Series.valid s) as [|y l]; [contradiction|].
  cbn [Series.maxl] in H. destruct (Series.maxl l); discriminate.
Qed.

Lemma count_table_row_at (e : entry) (es : list entry) (r : feat) :
  In r (with_score (snd (count_table e es))) ->
  nth_error (snd (count_table e es)) (Z.to_nat (num r)) = Some (feat_counts r).
Proof.
  intros H. apply (in_map feat_counts) in H. rewrite with_score_counts in H.
  apply In_nth_error in H. destruct H as [i Hi].
  pose proof (count_table_nth e es i _ Hi) as N. cbn [feat_counts fst] in N.
  rewrite N, Nat2Z.id. exact Hi.
Qed.

Lemma valid_recency_source (o : list (Z * Z * option Z)) (v : R) :
  In v (Series.valid (recency_col o)) -> exists c, In c o /\ snd c <> None.
Proof.
  unfold recency_col. induction o as [|c o IH]; [contradiction|].
  cbn [map]. destruct (snd c) as [z|] eqn:Ec; cbn [option_map Series.valid].
  - intros _. exists c. split; [left; reflexivity|congruence].
  - intros Hv. destruct (IH Hv) as [c' [Hc' Hd']].
    exists c'. split; [right; exact Hc'|exact Hd'].
Qed.

Lemma z_hot_at (e : entry) (es : list entry) (m d : R) (r : feat) :
  z_hot (snd (count_table e es)) =
    map (fun x => Series.lift2 Rdiv (Series.lift2 Rminus x (Some m)) (Some d))
        (freq_col (snd (count_table e es))) ->
  In r (with_score (snd (count_table e es))) ->
  nth_error (z_hot (snd (count_table e es))) (Z.to_nat (num r))
  = Some (Some ((IZR (freq_30d r) - m) / d)).
Proof.
  intros Hz Hr. rewrite Hz. unfold freq_col. rewrite !nth_error_map.
  rewrite (count_table_row_at e es r Hr). reflexivity.
Qed.

Lemma z_cold_at (e : entry) (es : list entry) (M m d : R) (r : feat) :
  Series.max (recency_col (snd (count_table e es))) = Some M ->
  z_cold (snd (count_table e es)) =
    map (fun x => Series.lift2 Rdiv (Series.lift2 Rminus x (Some m)) (Some d))
        (rc (snd (count_table e es))) ->
  In r (with_score (snd (count_table e es))) ->
  nth_error (z_cold (snd (count_table e es))) (Z.to_nat (num r))
  = Some (Some ((filled M (recency_days r) - m) / d)).
Proof.
  intros EM Hz Hr. rewrite Hz. unfold rc. rewrite EM, fillna_Some.
  unfold recency_col. rewrite !nth_error_map.
  rewrite (count_table_row_at e es r Hr).
  unfold feat_counts. cbn [option_map snd].
  destruct (recency_days r); reflexivity.
Qed.

Lemma zscore_nan (s : Series.t) (i : nat) (b : option R) :
  (forall x, In x s -> x = None) ->
  nth_error (Series.zscore s) i = Some b -> b = None.
Proof.
  intros Hs. unfold Series.zscore.
  generalize (Series.mean s) as m. generalize (Series.or_one (Series.std s)) as d.
  intros d m Hb. rewrite nth_error_map in Hb.
  destruct (nth_error s i) as [x|] eqn:Ex; [|discriminate Hb].
  apply nth_error_In in Ex. apply Hs in Ex. subst x.
  cbn [option_map] in Hb. apply Some_inj in Hb. subst b. reflexivity.
Qed.

Lemma z_cold_nan (e : entry) (es : list entry) (i : nat) (b : option R) :
  Series.max (recency_col (snd (count_table e es))) = None ->
  nth_error (z_cold (snd (count_table e es))) i = Some b -> b = None.
Proof.
  intros EM. unfold z_cold, rc. rewrite EM. apply zscore_nan.
  intros x Hx. unfold Series.fillna in Hx.
  apply in_map_iff in Hx. destruct Hx as [y [Ey Hy]].
  pose proof (max_None _ EM y Hy) as Hnone. subst y. symmetry. exact Ey.
Qed.

(** The score of a row, written out. *)
Lemma score_formula (e : entry) (es : list entry) :
  (exists M m1 d1 m2 d2,
      0 < d1 /\ 0 < d2 /\
      (forall r v, In r (with_score (snd (count_table e es))) ->
                   recency_days r = Some v -> IZR v <= M) /\
      (forall r, In r (with_score (snd (count_table e es))) ->
         score r =
           Some (6 / 10 * ((IZR (freq_30d r) - m1) / d1)
                 + 4 / 10 * ((filled M (recency_days r) - m2) / d2))))
  \/ (forall r, In r (with_score (snd (count_table e es))) -> score r = None).
Proof.
  destruct (z_hot_standardized e es) as [m1 [sd1 [d1 [_ [_ [_ [Hz1 [Hd1 _]]]]]]]].
  destruct (Series.max (recency_col (snd (count_table e es)))) as [M|] eqn:EM.
  - left.
    destruct (z_cold_standardized e es) as
        [m2 [sd2 [d2 [_ [_ [_ [Hz2 [Hd2 _]]]]]]]].
    { pose proof EM as EM'. rewrite max_unfold in EM'.
      destruct (Series.valid (recency_col (snd (count_table e es))))
        as [|v l] eqn:V; [discriminate EM'|].
      apply (valid_recency_source _ v). rewrite V. left. reflexivity. }
    exists M, m1, d1, m2, d2. split; [exact Hd1|]. split; [exact Hd2|]. split.
    + intros r v Hr Hv. pose proof EM as EM'. rewrite max_unfold in EM'.
      apply (maxl_bound _ M EM'). apply valid_In.
      unfold recency_col. apply in_map_iff. exists (feat_counts r).
      split; [unfold feat_counts; cbn [snd]; rewrite Hv; reflexivity|].
      rewrite <- (with_score_counts (snd (count_table e es))).
      apply in_map. exact Hr.
    + intros r Hr.
      destruct (with_score_row e es r Hr) as [a [b [Ha [Hb Hs]]]].
      rewrite (z_hot_at e es m1 d1 r Hz1 Hr) in Ha. apply Some_inj in Ha.
      rewrite (z_cold_at e es M m2 d2 r EM Hz2 Hr) in Hb. apply Some_inj in Hb.
      rewrite Hs, <- Ha, <- Hb. reflexivity.
  - right. intros r Hr.
    destruct (with_score_row e es r Hr) as [a [b [_ [Hb Hs]]]].
    rewrite (z_cold_nan e es _ b EM Hb) in Hs. rewrite Hs.
    unfold Series.mix. destruct a; reflexivity.
Qed.

(** X11. The score follows both signals: of two values, the one drawn at
    least as often in the window and at least as cold (never drawn, or drawn
    longer ago) has a score at least as high; two values with the same
    frequency and the same recency have the same score. *)
Theorem score_monotone (to_datetime : string -> option Z) (df : history)
  (t : list feat) (ld : Z) (a b : feat) :
  build_features to_datetime df = Ok (t, Some ld) -> In a t -> In b t ->
  ((freq_30d b <= freq_30d a)%Z ->
   colder (recency_days a) (recency_days b) ->
   score_ge (score a) (score b)) /\
  (freq_30d a = freq_30d b -> recency_days a = recency_days b ->
   score a = score b).
Proof.
  intros H Ha Hb. apply build_features_inv in H.
  destruct H as [hist [_ [[_ [_ Eld]]|[e [es [_ [Et _]]]]]]];
    [discriminate Eld|].
  assert (P : forall r, In r t -> In r (with_score (snd (count_table e es)))).
  { intros r Hr. rewrite Et in Hr.
    eapply Permutation_in; [apply Permutation_sym, sort_values_perm|exact Hr]. }
  apply P in Ha. apply P in Hb.
  destruct (score_formula e es)
    as [[M [m1 [d1 [m2 [d2 [Hd1 [Hd2 [HM Hs]]]]]]]]|Hnone].
  - rewrite (Hs a Ha), (Hs b Hb). split.
    + intros Hf Hc. cbn [score_ge].
      assert (F : IZR (freq_30d b) <= IZR (freq_30d a)) by (apply IZR_le; exact Hf).
      assert (C : filled M (recency_days b) <= filled M (recency_days a)).
      { unfold colder in Hc.
        destruct (recency_days a) as [x|] eqn:Ea,
                 (recency_days b) as [y|] eqn:Eb; cbn [filled].
        - apply IZR_le. exact Hc.
        - contradiction.
        - apply (HM b y Hb Eb).
        - apply Rle_refl. }
      pose proof (Rinv_0_lt_compat d1 Hd1) as I1.
      pose proof (Rinv_0_lt_compat d2 Hd2) as I2.
      unfold Rdiv. nra.
    + intros -> ->. reflexivity.
  - rewrite (Hnone a Ha), (Hnone b Hb). split; intros; [exact I|reflexivity].
Qed.

End ScoreOrder.

Lemma score_monotone_witness :
  exists t a b,
    build_features Calendar.iso_day two_days = Ok (t, Some 19783) /\
    In a t /\ num a = 45 /\ In b t /\ num b = 99 /\
    score_ge (score a) (score b).
Proof.
  destruct (build_features_row_at Calendar.iso_day two_days _ _ 45 1 (Some 0)
              two_days_hist) as [t [a [B [Ha [Hna [Hfa Hra]]]]]].
  { apply count_table_rows. cbn [fst snd]. split; [lia|].
    split; vm_compute; reflexivity. }
  assert (B' : build_features Calendar.iso_day two_days = Ok (t, Some 19783))
    by exact B.
  destruct (build_features_row_at Calendar.iso_day two_days _ _ 99 1 (Some 0)
              two_days_hist) as [t' [b [B2 [Hb [Hnb [Hfb Hrb]]]]]].
  { apply count_table_rows. cbn [fst snd]. split; [lia|].
    split; vm_compute; reflexivity. }
  assert (Et : t' = t).
  { rewrite B in B2. apply Ok_pair_inj in B2. symmetry. apply B2. }
  subst t'.
  exists t, a, b. split; [exact B'|]. split; [exact Ha|]. split; [exact Hna|].
  split; [exact Hb|]. split; [exact Hnb|].
  apply (score_monotone Calendar.iso_day two_days t 19783 a b B' Ha Hb).
  - rewrite Hfa, Hfb. lia.
  - rewrite Hra, Hrb. cbn. lia.
Defined.

(** ** Recency is the distance to the last draw *)

(** X15. The latest day is the latest date of [hist]: some entry lies on it
    and none after it; and a recency of [d] days means that the value was
    drawn [d] days before the latest day and not since. *)
Theorem recency_is_days_since_last_draw (to_datetime : string -> option Z)
  (df : history) (t : list feat) (ld d : Z) (r : feat) :
  build_features to_datetime df = Ok (t, Some ld) -> In r t ->
  recency_days r = Some d ->
  exists hist,
    hist_rows to_datetime df = Ok hist /\
    (exists x, In x hist /\ e_date x = ld) /\
    (forall x, In x hist -> e_date x <= ld) /\
    (exists x, In x hist /\ e_num x = num r /\ e_date x = ld - d) /\
    (forall x, In x hist -> e_num x = num r -> e_date x <= ld - d).
Proof.
  intros H Hr Hd.
  destruct (build_features_rows _ _ _ _ _ H Hr)
    as [e [es [Hh [Eld [_ [_ Hrec]]]]]].
  exists (e :: es). split; [exact Hh|].
  split; [rewrite Eld; apply max_date_attained|].
  split; [intros x Hx; rewrite Eld; apply max_date_ge; exact Hx|].
  rewrite Hrec in Hd.
  destruct (last_seen_at (e :: es) (num r)) as [d'|] eqn:L; [|discriminate Hd].
  cbn [option_map] in Hd. apply Some_inj in Hd.
  replace (ld - d) with d' by lia. split.
  - apply last_seen_attained. exact L.
  - intros x Hx Hn. eapply last_seen_ge; eassumption.
Qed.

Lemma recency_is_days_since_last_draw_witness :
  exists t r,
    build_features Calendar.iso_day two_days = Ok (t, Some 19783) /\
    In r t /\ num r = 34 /\ recency_days r = Some 60 /\
    (exists x,
       In x [mkEntry 19723 45; mkEntry 19723 34;
             mkEntry 19783 45; mkEntry 19783 99]
       /\ e_date x = 19783) /\
    exists x,
      In x [mkEntry 19723 45; mkEntry 19723 34;
            mkEntry 19783 45; mkEntry 19783 99]
      /\ e_num x = 34 /\ e_date x = 19783 - 60.
Proof.
  destruct (build_features_row_at Calendar.iso_day two_days _ _ 34 0 (Some 60)
              two_days_hist) as [t [r [B [Hr [Hn [_ Hrec]]]]]].
  { apply count_table_rows. cbn [fst snd]. split; [lia|].
    split; vm_compute; reflexivity. }
  assert (B' : build_features Calendar.iso_day two_days = Ok (t, Some 19783))
    by exact B.
  exists t, r. split; [exact B'|]. split; [exact Hr|]. split; [exact Hn|].
  split; [exact Hrec|].
  destruct (recency_is_days_since_last_draw Calendar.iso_day two_days t 19783
              60 r B' Hr Hrec)
    as [hist [Hh [[y [Hy Hdy]] [_ [[x [Hx [Hnx Hdx]]] _]]]]].
  rewrite two_days_hist in Hh. apply Ok_inj in Hh. subst hist.
  split; [exists y; split; [exact Hy|exact Hdy]|].
  exists x. rewrite Hn in Hnx. split; [exact Hx|]. split; [exact Hnx|exact Hdx].
Defined.
